(** * The training / evaluation loop of ConvNetsPyTorch.ipynb

    A shallow embedding of the notebook's [train] function (the cell that
    starts with [import torch] / [from torch import optim]) and the
    properties of its History, its console output and its failure paths.

    The tensor framework (forward pass, loss, autograd, optimizer) is not
    code of the notebook: it is taken as an interface, [Framework], whose
    operations may raise.  Python floats are idealised as rationals. *)

From Stdlib Require Import ZArith QArith Lqa String List Lia.
From stdpp Require Import base option list gmap strings fin_maps.

Local Open Scope string_scope.
Local Open Scope Z_scope.
Local Open Scope list_scope.

(** ** Python values the loop manipulates *)

(** An instance of Python's [Exception], carried by the text [str(e)]
    that the handler prints. *)
Definition exn := string.

Inductive Result (A : Type) : Type :=
| Ok (a : A)
| Raise (e : exn).
Arguments Ok {A} a.
Arguments Raise {A} e.

(** The running loss starts as the int [0] and becomes a float at the first
    [+= loss.item()]; the message of ZeroDivisionError depends on it. *)
Inductive PyNum : Type :=
| PyInt (z : Z)
| PyFloat (q : Q).

Definition py_val (a : PyNum) : Q :=
  match a with
  | PyInt z => inject_Z z
  | PyFloat q => q
  end.

Definition py_add (a b : PyNum) : PyNum :=
  match a, b with
  | PyInt x, PyInt y => PyInt (x + y)
  | _, _ => PyFloat (py_val a + py_val b)
  end.

Definition py_mul (a b : PyNum) : PyNum :=
  match a, b with
  | PyInt x, PyInt y => PyInt (x * y)
  | _, _ => PyFloat (py_val a * py_val b)
  end.

(** [a / b]: true division, always a float; a zero divisor raises
    ZeroDivisionError (messages of CPython 3.10, the notebook's kernel). *)
Definition py_truediv (a b : PyNum) : Result Q :=
  if Qeq_bool (py_val b) 0 then
    Raise (match a, b with
           | PyInt _, PyInt _ => "division by zero"
           | _, _ => "float division by zero"
           end)
  else Ok (py_val a / py_val b)%Q.

(** One call of [print]. *)
Inductive Line : Type :=
| Warning (msg : string)
| Progress (epoch epochs : Z) (train_loss train_acc test_loss test_acc : Q)
| ErrorLine (e : exn).

Definition is_error (l : Line) : bool :=
  match l with ErrorLine _ => true | _ => false end.

Definition is_progress (l : Line) : bool :=
  match l with Progress _ _ _ _ _ _ => true | _ => false end.

Definition is_warning (l : Line) : bool :=
  match l with Warning _ => true | _ => false end.

Definition count_lines (p : Line -> bool) (out : list Line) : nat :=
  length (List.filter p out).

(** ** The external framework

    The operations of torch that [train] calls.  A forward pass reads the
    parameters and does not write them: the model is a callable from a
    batch to a prediction, and its parameters are written by the optimizer
    alone.  Constructing the optimizer and the criterion, and moving tensors
    to the device, are taken to succeed: they stand before the [try]. *)

Class Framework : Type := {
  Params : Type;      (* the learnable parameters of the model *)
  Grads : Type;       (* the .grad buffers of the parameters *)
  OptState : Type;    (* the moments and step count of Adam *)
  Data : Type;
  Target : Type;
  Output : Type;
  Loss : Type;
  (* optim.Adam(model.parameters(), lr=0.001) *)
  adam : Params -> OptState;
  (* optimizer.zero_grad() *)
  zero_grad : Grads -> Grads;
  (* model(data), under the flags model.training and torch.is_grad_enabled() *)
  forward : Params -> bool -> bool -> Data -> Result (option Output);
  (* criterion(output, target), criterion = torch.nn.CrossEntropyLoss() *)
  criterion : Output -> Target -> Result (option Loss);
  (* loss.backward() accumulates into the .grad buffers *)
  backward : Params -> Grads -> Loss -> Result Grads;
  (* optimizer.step() *)
  adam_step : OptState -> Params -> Grads -> Result (OptState * Params);
  (* loss.item() *)
  item : Loss -> Q;
  (* target.size(0) *)
  size0 : Target -> nat;
  (* _, predicted = torch.max(output.data, 1); (predicted == target).sum().item() *)
  num_correct : Output -> Target -> nat
}.

Section Loop.
Context `{FW : Framework}.

(** The model object: its parameters, their gradients and the mode flag
    switched by [model.train()] and [model.eval()]. *)
Record Model : Type := mkModel {
  m_params : Params;
  m_grads : Grads;
  m_training : bool
}.

(** A data loader: a finite, restartable sequence of batches, and
    [len(loader.dataset)]. *)
Record Loader : Type := mkLoader {
  batches : list (Data * Target);
  dataset_len : nat
}.

(** Everything the loop reads and writes. *)
Record State : Type := mkState {
  model : Model;
  grad_enabled : bool;
  optimizer : OptState;
  history : gmap string (list Q);
  stdout : list Line
}.

Definition set_model (m : Model) (st : State) : State :=
  mkState m (grad_enabled st) (optimizer st) (history st) (stdout st).
Definition set_grad_enabled (b : bool) (st : State) : State :=
  mkState (model st) b (optimizer st) (history st) (stdout st).
Definition set_optimizer (o : OptState) (st : State) : State :=
  mkState (model st) (grad_enabled st) o (history st) (stdout st).
Definition set_history (h : gmap string (list Q)) (st : State) : State :=
  mkState (model st) (grad_enabled st) (optimizer st) h (stdout st).
Definition set_stdout (out : list Line) (st : State) : State :=
  mkState (model st) (grad_enabled st) (optimizer st) (history st) out.

(** ** Statements: state passing with exceptions

    A raised exception keeps the state reached so far: what was printed
    stays printed, and the updates already applied stay applied. *)
Definition M (A : Type) : Type := State -> Result A * State.

Definition ret {A} (a : A) : M A := fun st => (Ok a, st).

Definition bind {A B} (m : M A) (k : A -> M B) : M B :=
  fun st =>
    match m st with
    | (Ok a, st') => k a st'
    | (Raise e, st') => (Raise e, st')
    end.

Definition lift {A} (r : Result A) : M A := fun st => (r, st).

End Loop.

Declare Scope py_scope.
Delimit Scope py_scope with py.
Notation "'do' x <- m ; k" := (bind m (fun x => k))
  (at level 10, x name, m at level 100, k at level 200) : py_scope.
Notation "'do_' m ; k" := (bind m (fun _ => k))
  (at level 10, m at level 100, k at level 200) : py_scope.
Local Open Scope py_scope.

(** ** The statements of [train] *)

Section Train.
Context `{FW : Framework}.

Definition print (l : Line) : M unit :=
  fun st => (Ok tt, set_stdout (stdout st ++ [l]) st).

(** [model.train()] and [model.eval()] switch the mode flag. *)
Definition model_train : M unit :=
  fun st =>
    (Ok tt, set_model (mkModel (m_params (model st)) (m_grads (model st)) true) st).

Definition model_eval : M unit :=
  fun st =>
    (Ok tt, set_model (mkModel (m_params (model st)) (m_grads (model st)) false) st).

(** [optimizer.zero_grad()] *)
Definition optimizer_zero_grad : M unit :=
  fun st =>
    let m := model st in
    (Ok tt, set_model (mkModel (m_params m) (zero_grad (m_grads m)) (m_training m)) st).

(** [output = model(data)] *)
Definition call_model (data : Data) : M (option Output) :=
  fun st =>
    let m := model st in
    (forward (m_params m) (m_training m) (grad_enabled st) data, st).

(** [loss.backward()] *)
Definition loss_backward (loss : Loss) : M unit :=
  fun st =>
    let m := model st in
    match backward (m_params m) (m_grads m) loss with
    | Ok g => (Ok tt, set_model (mkModel (m_params m) g (m_training m)) st)
    | Raise e => (Raise e, st)
    end.

(** [optimizer.step()] *)
Definition optimizer_step : M unit :=
  fun st =>
    let m := model st in
    match adam_step (optimizer st) (m_params m) (m_grads m) with
    | Ok (o, p) =>
        (Ok tt, set_optimizer o (set_model (mkModel p (m_grads m) (m_training m)) st))
    | Raise e => (Raise e, st)
    end.

(** [history[key].append(v)]; a missing key is a KeyError, whose text is
    the repr of the key. *)
Definition history_append (key : string) (v : Q) : M unit :=
  fun st =>
    match history st !! key with
    | Some l => (Ok tt, set_history (<[key := (l ++ [v])%list]> (history st)) st)
    | None => (Raise ("'" ++ key ++ "'")%string, st)
    end.

(** [with torch.no_grad(): body]: the previous switch is restored on exit,
    also when the body raises. *)
Definition no_grad {A} (body : M A) : M A :=
  fun st =>
    let prev := grad_enabled st in
    let (r, st') := body (set_grad_enabled false st) in
    (r, set_grad_enabled prev st').

(** [for x in xs: acc = body(x, acc)] *)
Fixpoint for_each {X A} (xs : list X) (body : X -> A -> M A) (acc : A) : M A :=
  match xs with
  | [] => ret acc
  | x :: xs' => do acc' <- body x acc; for_each xs' body acc'
  end.

(** The three running totals of a phase:
    [train_loss, train_correct, train_total = 0, 0, 0]. *)
Record Totals : Type := mkTotals {
  loss_sum : PyNum;
  correct : nat;
  total : nat
}.

Definition zero_totals : Totals := mkTotals (PyInt 0) 0 0.

(** The accumulation at the end of a batch that was not skipped. *)
Definition accumulate (loss : Loss) (output : Output) (target : Target)
    (t : Totals) : Totals :=
  mkTotals (py_add (loss_sum t) (PyFloat (item loss)))
           (correct t + num_correct output target)
           (total t + size0 target).

(** The body of [for data, target in train_loader]. *)
Definition train_batch (b : Data * Target) (t : Totals) : M Totals :=
  let (data, target) := b in
  do_ optimizer_zero_grad;
  do output <- call_model data;
  match output with
  | None =>
      do_ print (Warning "Warning: Model output is None.");
      ret t
  | Some output =>
      do loss <- lift (criterion output target);
      match loss with
      | None =>
          do_ print (Warning "Warning: Loss computation returned None.");
          ret t
      | Some loss =>
          do_ loss_backward loss;
          do_ optimizer_step;
          ret (accumulate loss output target t)
      end
  end.

(** The body of [for data, target in test_loader]. *)
Definition eval_batch (b : Data * Target) (t : Totals) : M Totals :=
  let (data, target) := b in
  do output <- call_model data;
  match output with
  | None =>
      do_ print (Warning "Warning: Model output is None during evaluation.");
      ret t
  | Some output =>
      do loss <- lift (criterion output target);
      match loss with
      | None =>
          do_ print (Warning "Warning: Loss computation returned None during evaluation.");
          ret t
      | Some loss => ret (accumulate loss output target t)
      end
  end.

(** [loss /= len(loader.dataset)] and [acc = 100. * correct / total]. *)
Definition derive_loss (loader : Loader) (t : Totals) : Result Q :=
  py_truediv (loss_sum t) (PyInt (Z.of_nat (dataset_len loader))).

Definition derive_acc (t : Totals) : Result Q :=
  py_truediv (py_mul (PyFloat 100) (PyInt (Z.of_nat (correct t))))
             (PyInt (Z.of_nat (total t))).

(** The training phase of an epoch, up to its two [append]s. *)
Definition train_phase (train_loader : Loader) : M (Q * Q) :=
  do_ model_train;
  do t <- for_each (batches train_loader) train_batch zero_totals;
  do train_loss <- lift (derive_loss train_loader t);
  do train_acc <- lift (derive_acc t);
  do_ history_append "train_loss" train_loss;
  do_ history_append "train_acc" train_acc;
  ret (train_loss, train_acc).

(** The evaluation pass: [model.eval()], the batches under [no_grad], and
    the two derived metrics. *)
Definition eval_pass (test_loader : Loader) : M (Q * Q) :=
  do_ model_eval;
  do t <- no_grad (for_each (batches test_loader) eval_batch zero_totals);
  do test_loss <- lift (derive_loss test_loader t);
  do test_acc <- lift (derive_acc t);
  ret (test_loss, test_acc).

(** The evaluation phase of an epoch: the pass and its two [append]s. *)
Definition eval_phase (test_loader : Loader) : M (Q * Q) :=
  do m <- eval_pass test_loader;
  do_ history_append "test_loss" (fst m);
  do_ history_append "test_acc" (snd m);
  ret m.

(** The body of [for epoch in range(epochs)]. *)
Definition epoch_body (train_loader test_loader : Loader) (epochs : Z)
    (epoch : Z) (_ : unit) : M unit :=
  do tr <- train_phase train_loader;
  do te <- eval_phase test_loader;
  print (Progress (epoch + 1) epochs (fst tr) (snd tr) (fst te) (snd te)).

(** [range(epochs)]: empty when [epochs <= 0]. *)
Definition range (n : Z) : list Z :=
  map Z.of_nat (seq 0 (Z.to_nat n)).

Definition initial_history : gmap string (list Q) :=
  <["train_loss" := []]> (<["train_acc" := []]> (<["test_loss" := []]>
  (<["test_acc" := []]> (<["val_acc" := []]> (<["val_loss" := []]> ∅))))).

(** The state when the [try] block is entered.  The device transfer is
    the identity on the model, and autograd is on, as it is by default. *)
Definition initial_state (net : Model) : State :=
  mkState net true (adam (m_params net)) initial_history [].

(** The [try] block. *)
Definition epochs_loop (train_loader test_loader : Loader) (epochs : Z) : M unit :=
  for_each (range epochs) (epoch_body train_loader test_loader epochs) tt.

(** [train(model, train_loader, test_loader, epochs)]: the returned value
    ([None] or the history) and the final state, whose [stdout] holds all
    that was printed and whose [model] is the caller's model afterwards. *)
Definition train (net : Model) (train_loader test_loader : Loader)
    (epochs : Z) : option (gmap string (list Q)) * State :=
  match epochs_loop train_loader test_loader epochs (initial_state net) with
  | (Ok _, st) => (Some (history st), st)
  | (Raise e, st) => (None, set_stdout (stdout st ++ [ErrorLine e]) st)
  end.

End Train.

(** ** A small concrete framework, to run the loop on

    Parameters count the optimizer steps taken.  A batch is a code and a
    batch size: code 0 makes the model return None, code 2 makes the
    criterion return None, code 3 makes the forward pass raise once two
    steps have been taken in training mode, code 4 makes it raise in
    evaluation mode; any other code is a well-formed batch with loss 1/2
    whose number of correct predictions is the code, capped by the size. *)
Module Toy.

Definition toy_forward (p : nat) (training grad : bool) (d : nat)
    : Result (option nat) :=
  match d with
  | O => Ok None
  | 3%nat =>
      if training && (2 <=? p)%nat then Raise "mat1 and mat2 shapes cannot be multiplied"
      else Ok (Some d)
  | 4%nat =>
      if training then Ok (Some d) else Raise "CUDA out of memory"
  | _ => Ok (Some d)
  end.

Definition toy_criterion (o : nat) (t : nat) : Result (option Q) :=
  match o with
  | 2%nat => Ok None
  | _ => Ok (Some (1 # 2)%Q)
  end.

#[export] Instance toy : Framework := {|
  Params := nat;
  Grads := nat;
  OptState := nat;
  Data := nat;
  Target := nat;
  Output := nat;
  Loss := Q;
  adam := fun _ => O;
  zero_grad := fun _ => O;
  forward := toy_forward;
  criterion := toy_criterion;
  backward := fun _ g _ => Ok (S g);
  adam_step := fun o p _ => Ok (S o, S p);
  item := fun l => l;
  size0 := fun t => t;
  num_correct := fun o t => Nat.min o t
|}.

Definition net0 : Model := mkModel (O : Params) (O : Grads) false.

(** A batch of four examples on which the model returns None. *)
Definition no_output_batch : Data * Target := (0%nat, 4%nat).

(** Two well-formed batches of four examples. *)
Definition good_loader : Loader := mkLoader [(1%nat, 4%nat); (1%nat, 4%nat)] 8.

(** One anomalous batch of each kind between two well-formed ones. *)
Definition mixed_loader : Loader :=
  mkLoader [(1%nat, 4%nat); (0%nat, 4%nat); (2%nat, 4%nat); (1%nat, 4%nat)] 16.

(** Only anomalous batches. *)
Definition skipped_loader : Loader := mkLoader [(0%nat, 4%nat); (2%nat, 4%nat)] 8.

(** Its second batch raises from the second epoch on. *)
Definition failing_loader : Loader := mkLoader [(1%nat, 4%nat); (3%nat, 4%nat)] 8.

(** Its batch raises in evaluation mode. *)
Definition eval_failing_loader : Loader := mkLoader [(4%nat, 4%nat)] 4.

(** The partitions of the two-epoch scenario of the specification: 100
    training examples in 10 batches of 10, 20 evaluation examples in 2
    batches of 10. *)
Definition scenario_train : Loader := mkLoader (List.repeat (1%nat, 10%nat) 10) 100.
Definition scenario_test : Loader := mkLoader (List.repeat (1%nat, 10%nat) 2) 20.

End Toy.


(** * Vocabulary of the properties *)

Section Vocabulary.
Context `{FW : Framework}.

(** [triple P m Qn Qe]: from a state in [P], the statement [m] either
    returns [a] in a state in [Qn a], or raises [e] in a state in [Qe e]. *)
Definition triple {A} (P : State -> Prop) (m : M A)
    (Qn : A -> State -> Prop) (Qe : exn -> State -> Prop) : Prop :=
  forall st, P st ->
    match m st with
    | (Ok a, st') => Qn a st'
    | (Raise e, st') => Qe e st'
    end.

(** [m] keeps the invariant [I], whether it returns or raises. *)
Definition keeps {A} (I : State -> Prop) (m : M A) : Prop :=
  triple I m (fun _ => I) (fun _ => I).

(** A property of the history and of the printed lines only. *)
Definition on_output (I : gmap string (list Q) -> list Line -> Prop) : State -> Prop :=
  fun st => I (history st) (stdout st).

(** The two per-batch anomalies: the model returned None, or the criterion
    did.  [anomaly st b] tells which one batch [b] runs into when the model
    is called in state [st], if any. *)
Inductive Anomaly : Type := NoOutput | NoLoss.

Definition anomaly (st : State) (b : Data * Target) : option Anomaly :=
  let m := model st in
  match forward (m_params m) (m_training m) (grad_enabled st) (fst b) with
  | Ok None => Some NoOutput
  | Ok (Some output) =>
      match criterion output (snd b) with
      | Ok None => Some NoLoss
      | _ => None
      end
  | Raise _ => None
  end.

Definition train_warning (a : Anomaly) : Line :=
  match a with
  | NoOutput => Warning "Warning: Model output is None."
  | NoLoss => Warning "Warning: Loss computation returned None."
  end.

Definition eval_warning (a : Anomaly) : Line :=
  match a with
  | NoOutput => Warning "Warning: Model output is None during evaluation."
  | NoLoss => Warning "Warning: Loss computation returned None during evaluation."
  end.

(** The state after [optimizer.zero_grad()]. *)
Definition zeroed (st : State) : State :=
  set_model (mkModel (m_params (model st)) (zero_grad (m_grads (model st)))
                     (m_training (model st))) st.

Definition no_error_lines : State -> Prop :=
  on_output (fun _ out => count_lines is_error out = 0%nat).

(** The keys of the history dict, and the four that [train] appends to. *)
Definition history_keys : gset string :=
  list_to_set ["train_loss"; "train_acc"; "test_loss"; "test_acc"; "val_acc"; "val_loss"].

Definition metric_keys : list string :=
  ["train_loss"; "train_acc"; "test_loss"; "test_acc"].

(** The length of each sequence of a history. *)
Definition lengths (h : gmap string (list Q)) : gmap string nat := length <$> h.

(** The lengths when [a] training phases and [b] evaluation phases have
    appended their metrics. *)
Definition epoch_lengths (a b : nat) : gmap string nat :=
  <["train_loss" := a]> (<["train_acc" := a]> (<["test_loss" := b]>
  (<["test_acc" := b]> (<["val_acc" := 0%nat]> (<["val_loss" := 0%nat]> ∅))))).

(** [k] epochs have completed: their metrics are in the history and their
    progress lines are printed. *)
Definition completed (k : nat) : State -> Prop :=
  on_output (fun h out =>
    lengths h = epoch_lengths k k /\ count_lines is_progress out = k).

(** The training phase of epoch [k + 1] has completed as well. *)
Definition half_completed (k : nat) : State -> Prop :=
  on_output (fun h out =>
    lengths h = epoch_lengths (S k) k /\ count_lines is_progress out = k).

(** The states in which the batches of a phase meet the model: in training
    mode after [model.train()], in evaluation mode and under [no_grad]
    after [model.eval()]. *)
Definition training_state (st : State) : State :=
  set_model (mkModel (m_params (model st)) (m_grads (model st)) true) st.

Definition evaluation_state (st : State) : State :=
  set_grad_enabled false
    (set_model (mkModel (m_params (model st)) (m_grads (model st)) false) st).

(** Every batch of [bs] is anomalous for the model of [st]. *)
Definition all_skipped (st : State) (bs : list (Data * Target)) : bool :=
  forallb (fun b => match anomaly st b with Some _ => true | None => false end) bs.

(** The two texts of ZeroDivisionError. *)
Definition zero_division (e : exn) : Prop :=
  e = "division by zero" \/ e = "float division by zero".

(** Sequence [key] of [h'] is that of [h] with [v] appended. *)
Definition appended (h h' : gmap string (list Q)) (key : string) (v : Q) : Prop :=
  exists l, h !! key = Some l /\ h' !! key = Some (l ++ [v]).

(** The accuracy and the loss sequences of the history, and the range in
    which the values of each lie. *)
Definition acc_keys : list string := ["train_acc"; "test_acc"; "val_acc"].
Definition loss_keys : list string := ["train_loss"; "test_loss"; "val_loss"].

Definition value_ok (key : string) (v : Q) : Prop :=
  (key ∈ acc_keys -> (0 <= v)%Q /\ (v <= 100)%Q) /\
  (key ∈ loss_keys -> (0 <= v)%Q).

Definition bounded (h : gmap string (list Q)) : Prop :=
  forall key l, h !! key = Some l -> Forall (value_ok key) l.

(** Running totals from which bounded metrics derive. *)
Definition good_totals (t : Totals) : Prop :=
  (0 <= py_val (loss_sum t))%Q /\ (correct t <= total t)%nat.

(** Two states in which the model computes the same predictions: same
    parameters, same mode, same autograd switch. *)
Definition agree (st1 st2 : State) : Prop :=
  m_params (model st1) = m_params (model st2) /\
  m_training (model st1) = m_training (model st2) /\
  grad_enabled st1 = grad_enabled st2.

(** [st'] differs from [st] by what was printed at most. *)
Definition untouched (st st' : State) : Prop :=
  model st' = model st /\ grad_enabled st' = grad_enabled st /\
  optimizer st' = optimizer st /\ history st' = history st.

End Vocabulary.

(** * The rest of the notebook *)

(** ** A framework whose calls neither raise nor return None

    As [OneConv] and [CrossEntropyLoss] behave on well-shaped batches:
    every forward pass returns a prediction and every loss is defined. *)
Module Plain.

#[export] Instance plain : Framework := {|
  Params := nat;
  Grads := nat;
  OptState := nat;
  Data := nat;
  Target := nat;
  Output := nat;
  Loss := Q;
  adam := fun _ => O;
  zero_grad := fun _ => O;
  forward := fun _ _ _ d => Ok (Some d);
  criterion := fun _ _ => Ok (Some (1 # 4)%Q);
  backward := fun _ g _ => Ok (S g);
  adam_step := fun o p _ => Ok (S o, S p);
  item := fun l => l;
  size0 := fun t => t;
  num_correct := fun o t => Nat.min o t
|}.

Definition plain_net : Model := mkModel (O : Params) (O : Grads) true.

(** Three batches of two examples, one batch of three. *)
Definition plain_train : Loader :=
  mkLoader [(1%nat, 2%nat); (2%nat, 2%nat); (0%nat, 2%nat)] 6.
Definition plain_test : Loader := mkLoader [(3%nat, 3%nat)] 3.

End Plain.

(** ** A framework with two labels per example

    A target of shape [n, 2], as in classification per position: the loss
    accepts it, [target.size(0)] is [n], and the comparison of the
    predictions with the target counts up to [2 * n] correct labels. *)
Module TwoLabels.

#[export] Instance two_labels : Framework := {|
  Params := nat;
  Grads := nat;
  OptState := nat;
  Data := nat;
  Target := nat;
  Output := nat;
  Loss := Q;
  adam := fun _ => O;
  zero_grad := fun _ => O;
  forward := fun _ _ _ d => Ok (Some d);
  criterion := fun _ _ => Ok (Some (1 # 4)%Q);
  backward := fun _ g _ => Ok (S g);
  adam_step := fun o p _ => Ok (S o, S p);
  item := fun l => l;
  size0 := fun t => t;
  num_correct := fun o t => Nat.min o (2 * t)
|}.

Definition labels_net : Model := mkModel (O : Params) (O : Grads) true.

(** One batch of four examples, all eight labels predicted correctly. *)
Definition labels_loader : Loader := mkLoader [(8%nat, 4%nat)] 4.

End TwoLabels.

Section MoreVocabulary.
Context `{FW : Framework}.

(** The autograd switch is [g]. *)
Definition grad_is (g : bool) (st : State) : Prop := grad_enabled st = g.

(** The number of examples of a list of batches: the sum of
    [target.size(0)]. *)
Definition examples (bs : list (Data * Target)) : nat :=
  sum_list (map (fun b => size0 (snd b)) bs).

(** The progress lines among the printed lines, in order. *)
Definition progress_lines (out : list Line) : list Line := List.filter is_progress out.

(** The progress lines that a history stands for: line [i + 1] carries
    entry [i] of each of the four metric sequences. *)
Definition progress_of_history (epochs : Z) (h : gmap string (list Q)) : list Line :=
  match h !! "train_loss", h !! "train_acc", h !! "test_loss", h !! "test_acc" with
  | Some a, Some b, Some c, Some d =>
      imap (fun i r => Progress (Z.of_nat i + 1) epochs
                         (fst (fst (fst r))) (snd (fst (fst r))) (snd (fst r)) (snd r))
           (zip (zip (zip a b) c) d)
  | _, _, _, _ => []
  end.

(** [k] epochs have completed, and the progress lines printed so far are
    those of the history. *)
Definition logged (epochs : Z) (k : nat) (st : State) : Prop :=
  completed k st /\
  progress_lines (stdout st) = progress_of_history epochs (history st).

(** The prediction and the loss of a batch that is not skipped, for the
    model of [st]; None when the batch is skipped or a call raises. *)
Definition kept (st : State) (b : Data * Target) : option (Output * Loss) :=
  let m := model st in
  match forward (m_params m) (m_training m) (grad_enabled st) (fst b) with
  | Ok (Some output) =>
      match criterion output (snd b) with
      | Ok (Some loss) => Some (output, loss)
      | _ => None
      end
  | _ => None
  end.

(** The three sums over the batches that are not skipped. *)
Definition kept_loss (st : State) (bs : list (Data * Target)) : Q :=
  fold_right (fun b acc =>
    match kept st b with Some (_, loss) => (item loss + acc)%Q | None => acc end) 0%Q bs.

Definition kept_correct (st : State) (bs : list (Data * Target)) : nat :=
  sum_list (map (fun b =>
    match kept st b with Some (output, _) => num_correct output (snd b) | None => 0%nat end) bs).

Definition kept_total (st : State) (bs : list (Data * Target)) : nat :=
  sum_list (map (fun b =>
    match kept st b with Some _ => size0 (snd b) | None => 0%nat end) bs).

(** The number of anomalous batches. *)
Definition skipped_count (st : State) (bs : list (Data * Target)) : nat :=
  length (List.filter (fun b => match anomaly st b with Some _ => true | None => false end) bs).

(** Two states from which training proceeds alike: same model, optimizer
    and autograd switch, same training sequences in the history. *)
Definition same_training (st1 st2 : State) : Prop :=
  model st1 = model st2 /\ optimizer st1 = optimizer st2 /\
  grad_enabled st1 = grad_enabled st2 /\
  history st1 !! "train_loss" = history st2 !! "train_loss" /\
  history st1 !! "train_acc" = history st2 !! "train_acc".

(** The notebook cell that calls [train]:
    [hist = train(net, train_loader, test_loader, epochs=5)], then the
    notice when [hist is None], [plot_results(hist)] otherwise. *)
Inductive CellAction : Type :=
| PrintNotice (msg : string)
| PlotResults (hist : gmap string (list Q)).

Definition training_cell (net : Model) (train_loader test_loader : Loader)
    : list Line * CellAction :=
  let (hist, st) := train net train_loader test_loader 5 in
  (stdout st,
   match hist with
   | None => PrintNotice "Training did not return any history."
   | Some h => PlotResults h
   end).

End MoreVocabulary.

(** ** The shapes of the tensors through [OneConv]

    [OneConv] on the shapes of its tensors: what its layers accept and
    what they return, as the notebook describes them (a 5x5 window fits
    in [h - 4] positions of [h] pixels; the 9x24x24 tensor is flattened
    into a vector of 5184; the linear layer produces 10 classes). *)

Definition Shape : Type := list N.

Inductive ShapeError : Type :=
| BadRank         (* the input of conv2d is neither 3-D nor 4-D *)
| BadChannels     (* its channels are not the layer's in_channels *)
| KernelTooLarge  (* the kernel is larger than the image *)
| FlattenRange    (* flatten from dimension 1 of a tensor without one *)
| BadFeatures     (* the last dimension is not the layer's in_features *)
| SoftmaxRange.   (* log_softmax over a dimension the tensor lacks *)

(** [nn.Conv2d(in_channels, out_channels, kernel_size=(kh, kw))], stride 1
    and no padding, on a batch [n; c; h; w] or one image [c; h; w]. *)
Definition conv2d_image (in_channels kh kw c h w : N) : option ShapeError :=
  if negb (c =? in_channels)%N then Some BadChannels
  else if (h <? kh)%N || (w <? kw)%N then Some KernelTooLarge
  else None.

Definition conv2d_shape (in_channels out_channels kh kw : N) (s : Shape)
    : ShapeError + Shape :=
  match s with
  | [c; h; w] =>
      match conv2d_image in_channels kh kw c h w with
      | Some e => inl e
      | None => inr [out_channels; h - kh + 1; w - kw + 1]%N
      end
  | [n; c; h; w] =>
      match conv2d_image in_channels kh kw c h w with
      | Some e => inl e
      | None => inr [n; out_channels; h - kh + 1; w - kw + 1]%N
      end
  | _ => inl BadRank
  end.

(** [nn.Flatten()]: dimensions 1 to the last become one. *)
Definition flatten_shape (s : Shape) : ShapeError + Shape :=
  match s with
  | d0 :: d1 :: rest => inr [d0; fold_right N.mul 1%N (d1 :: rest)]
  | _ => inl FlattenRange
  end.

(** [nn.Linear(in_features, out_features)] maps the last dimension. *)
Definition linear_shape (in_features out_features : N) (s : Shape)
    : ShapeError + Shape :=
  match last s with
  | Some d =>
      if (d =? in_features)%N then inr (removelast s ++ [out_features])
      else inl BadFeatures
  | None => inl BadFeatures
  end.

(** [log_softmax(x, dim)] keeps the shape. *)
Definition log_softmax_shape (dim : nat) (s : Shape) : ShapeError + Shape :=
  if (dim <? length s)%nat then inr s else inl SoftmaxRange.

(** [x.squeeze(dim)] drops dimension [dim] when its size is 1. *)
Definition squeeze_shape (dim : nat) (s : Shape) : Shape :=
  if (nth dim s 0 =? 1)%N then delete dim s else s.

Definition then_shape (r : ShapeError + Shape) (k : Shape -> ShapeError + Shape)
    : ShapeError + Shape :=
  match r with
  | inl e => inl e
  | inr s => k s
  end.

(** [OneConv.forward]: the guard for a fifth dimension, the convolution
    with its relu (which keeps the shape), the flattening, and the linear
    layer under log_softmax. *)
Definition OneConv_forward (x : Shape) : ShapeError + Shape :=
  let x := if (length x =? 5)%nat && (nth 2 x 0 =? 1)%N
           then squeeze_shape 2 x else x in
  then_shape (conv2d_shape 1 9 5 5 x) (fun x =>
  then_shape (flatten_shape x) (fun x =>
  then_shape (linear_shape 5184 10 x) (fun x =>
  log_softmax_shape 1 x))).

(** * Properties *)

(** ** The rules of the program logic *)

Section Logic.
Context `{FW : Framework}.

Lemma triple_ret {A} (a : A) (P : State -> Prop) Qn Qe :
  (forall st, P st -> Qn a st) -> triple P (ret a) Qn Qe.
Proof. intros H st HP. simpl. auto. Qed.

Lemma triple_lift {A} (r : Result A) (P : State -> Prop) Qn Qe :
  (forall st a, P st -> r = Ok a -> Qn a st) ->
  (forall st e, P st -> r = Raise e -> Qe e st) ->
  triple P (lift r) Qn Qe.
Proof. intros Hn He st HP. unfold lift. destruct r; eauto. Qed.

Lemma triple_bind {A B} (m : M A) (k : A -> M B) P (R : A -> State -> Prop) Qn Qe :
  triple P m R Qe ->
  (forall a, triple (R a) (k a) Qn Qe) ->
  triple P (bind m k) Qn Qe.
Proof.
  intros Hm Hk st HP. unfold bind.
  specialize (Hm st HP). destruct (m st) as [[a|e] st']; [|exact Hm].
  exact (Hk a st' Hm).
Qed.

Lemma triple_conseq {A} (m : M A) (P P' : State -> Prop) Qn Qn' Qe Qe' :
  triple P' m Qn' Qe' ->
  (forall st, P st -> P' st) ->
  (forall a st, Qn' a st -> Qn a st) ->
  (forall e st, Qe' e st -> Qe e st) ->
  triple P m Qn Qe.
Proof.
  intros Hm HP Hn He st Hst. specialize (Hm st (HP st Hst)).
  destruct (m st) as [[a|e] st']; auto.
Qed.

(** The loop rule: [J rest acc] holds before the iterations over [rest]. *)
Lemma triple_for_each {X A} (body : X -> A -> M A)
    (J : list X -> A -> State -> Prop) Qe xs acc :
  (forall x rest a, triple (J (x :: rest) a) (body x a) (J rest) Qe) ->
  triple (J xs acc) (for_each xs body acc) (J []) Qe.
Proof.
  intros Hbody. revert acc. induction xs as [|x xs IH]; intros acc.
  - apply triple_ret. auto.
  - simpl. eapply triple_bind; [apply Hbody | exact IH].
Qed.

Lemma keeps_bind {A B} I (m : M A) (k : A -> M B) :
  keeps I m -> (forall a, keeps I (k a)) -> keeps I (bind m k).
Proof. intros Hm Hk. eapply triple_bind; [exact Hm | exact Hk]. Qed.

Lemma keeps_ret {A} I (a : A) : keeps I (ret a).
Proof. apply triple_ret. auto. Qed.

Lemma keeps_lift {A} I (r : Result A) : keeps I (lift r).
Proof. apply triple_lift; auto. Qed.

Lemma keeps_for_each {X A} I (body : X -> A -> M A) xs acc :
  (forall x a, keeps I (body x a)) -> keeps I (for_each xs body acc).
Proof.
  intros Hbody. unfold keeps.
  apply (triple_for_each body (fun _ _ => I)). intros x rest a. apply Hbody.
Qed.

End Logic.

(** ** What the framework calls leave alone

    The calls into the framework touch the model, the optimizer and the
    autograd switch only: a property of the history and of the printed
    lines survives them. *)

Section Frame.
Context `{FW : Framework}.

Variable I : gmap string (list Q) -> list Line -> Prop.

Lemma keeps_model_train : keeps (on_output I) model_train.
Proof. intros st H. exact H. Qed.

Lemma keeps_model_eval : keeps (on_output I) model_eval.
Proof. intros st H. exact H. Qed.

Lemma keeps_zero_grad : keeps (on_output I) optimizer_zero_grad.
Proof. intros st H. exact H. Qed.

Lemma keeps_call_model data : keeps (on_output I) (call_model data).
Proof.
  intros st H. unfold call_model.
  destruct (forward _ _ _ _); exact H.
Qed.

Lemma keeps_loss_backward loss : keeps (on_output I) (loss_backward loss).
Proof.
  intros st H. unfold loss_backward.
  destruct (backward _ _ _); exact H.
Qed.

Lemma keeps_optimizer_step : keeps (on_output I) optimizer_step.
Proof.
  intros st H. unfold optimizer_step.
  destruct (adam_step _ _ _) as [[o p]|e]; exact H.
Qed.

Lemma keeps_no_grad {A} (body : M A) :
  keeps (on_output I) body -> keeps (on_output I) (no_grad body).
Proof.
  intros Hb st H. unfold no_grad.
  specialize (Hb (set_grad_enabled false st) H).
  destruct (body (set_grad_enabled false st)) as [[a|e] st']; exact Hb.
Qed.

Hypothesis keeps_warning : forall msg, keeps (on_output I) (print (Warning msg)).

Lemma keeps_train_batch b t : keeps (on_output I) (train_batch b t).
Proof.
  destruct b as [data target]. unfold train_batch.
  apply keeps_bind; [apply keeps_zero_grad | intros _].
  apply keeps_bind; [apply keeps_call_model | intros [output|]].
  - apply keeps_bind; [apply keeps_lift | intros [loss|]].
    + apply keeps_bind; [apply keeps_loss_backward | intros _].
      apply keeps_bind; [apply keeps_optimizer_step | intros _].
      apply keeps_ret.
    + apply keeps_bind; [apply keeps_warning | intros _; apply keeps_ret].
  - apply keeps_bind; [apply keeps_warning | intros _; apply keeps_ret].
Qed.

Lemma keeps_eval_batch b t : keeps (on_output I) (eval_batch b t).
Proof.
  destruct b as [data target]. unfold eval_batch.
  apply keeps_bind; [apply keeps_call_model | intros [output|]].
  - apply keeps_bind; [apply keeps_lift | intros [loss|]].
    + apply keeps_ret.
    + apply keeps_bind; [apply keeps_warning | intros _; apply keeps_ret].
  - apply keeps_bind; [apply keeps_warning | intros _; apply keeps_ret].
Qed.

Lemma keeps_train_batches bs t : keeps (on_output I) (for_each bs train_batch t).
Proof. apply keeps_for_each. intros. apply keeps_train_batch. Qed.

Lemma keeps_eval_batches bs t :
  keeps (on_output I) (no_grad (for_each bs eval_batch t)).
Proof. apply keeps_no_grad, keeps_for_each. intros. apply keeps_eval_batch. Qed.

End Frame.

(** ** Printed lines *)

Section Printing.
Context `{FW : Framework}.

Lemma count_lines_app p (xs ys : list Line) :
  count_lines p (xs ++ ys) = (count_lines p xs + count_lines p ys)%nat.
Proof. unfold count_lines. rewrite List.filter_app, length_app. reflexivity. Qed.

Lemma keeps_print_no_error l :
  is_error l = false -> keeps no_error_lines (print l).
Proof.
  intros Hl st H. unfold no_error_lines, on_output in *. simpl.
  rewrite count_lines_app, H. unfold count_lines. simpl. rewrite Hl. reflexivity.
Qed.

Lemma keeps_append_no_error key v : keeps no_error_lines (history_append key v).
Proof.
  intros st H. unfold history_append.
  destruct (history st !! key); exact H.
Qed.

Lemma keeps_train_phase_no_error tl : keeps no_error_lines (train_phase tl).
Proof.
  unfold train_phase.
  apply keeps_bind; [apply keeps_model_train | intros _].
  apply keeps_bind.
  { apply keeps_train_batches. intros msg. apply keeps_print_no_error. reflexivity. }
  intros t. apply keeps_bind; [apply keeps_lift | intros train_loss].
  apply keeps_bind; [apply keeps_lift | intros train_acc].
  apply keeps_bind; [apply keeps_append_no_error | intros _].
  apply keeps_bind; [apply keeps_append_no_error | intros _].
  apply keeps_ret.
Qed.

Lemma keeps_eval_phase_no_error te : keeps no_error_lines (eval_phase te).
Proof.
  unfold eval_phase, eval_pass.
  apply keeps_bind.
  { apply keeps_bind; [apply keeps_model_eval | intros _].
    apply keeps_bind.
    { apply keeps_eval_batches. intros msg. apply keeps_print_no_error. reflexivity. }
    intros t. apply keeps_bind; [apply keeps_lift | intros test_loss].
    apply keeps_bind; [apply keeps_lift | intros test_acc].
    apply keeps_ret. }
  intros m. apply keeps_bind; [apply keeps_append_no_error | intros _].
  apply keeps_bind; [apply keeps_append_no_error | intros _].
  apply keeps_ret.
Qed.

Lemma keeps_epochs_loop_no_error tl te epochs :
  keeps no_error_lines (epochs_loop tl te epochs).
Proof.
  unfold epochs_loop. apply keeps_for_each. intros epoch []. unfold epoch_body.
  apply keeps_bind; [apply keeps_train_phase_no_error | intros tr].
  apply keeps_bind; [apply keeps_eval_phase_no_error | intros ev].
  apply keeps_print_no_error. reflexivity.
Qed.

(** The loop itself prints warnings and progress lines only. *)
Lemma epochs_loop_no_error_lines net tl te epochs :
  count_lines is_error
    (stdout (snd (epochs_loop tl te epochs (initial_state net)))) = 0%nat.
Proof.
  pose proof (keeps_epochs_loop_no_error tl te epochs (initial_state net)) as H.
  destruct (epochs_loop tl te epochs (initial_state net)) as [[[]|e] st];
    apply H; reflexivity.
Qed.

End Printing.

(** ** Failures *)

Section Failures.
Context `{FW : Framework}.

(** C1. When an exception is raised anywhere in the loop, in whatever
    epoch and phase, [train] returns None: the history built so far is
    dropped.  What was printed before stays, followed by the line of the
    handler, which is the only error line of the run. *)
Theorem train_failure_returns_none net tl te epochs e st :
  epochs_loop tl te epochs (initial_state net) = (Raise e, st) ->
  fst (train net tl te epochs) = None /\
  stdout (snd (train net tl te epochs)) = stdout st ++ [ErrorLine e] /\
  count_lines is_error (stdout (snd (train net tl te epochs))) = 1%nat.
Proof.
  intros Hloop.
  pose proof (epochs_loop_no_error_lines net tl te epochs) as Hquiet.
  unfold train. rewrite Hloop in *. simpl in *.
  repeat split. rewrite count_lines_app, Hquiet. reflexivity.
Qed.

End Failures.

(** C1 on the run of the specification: five epochs asked for, the second
    one fails in its training phase. *)
Lemma train_failure_returns_none_witness :
  fst (train Toy.net0 Toy.failing_loader Toy.good_loader 5) = None /\
  stdout (snd (train Toy.net0 Toy.failing_loader Toy.good_loader 5)) =
    [Progress 1 5 (4 # 32) (400 # 8) (4 # 32) (200 # 8);
     ErrorLine "mat1 and mat2 shapes cannot be multiplied"] /\
  count_lines is_error
    (stdout (snd (train Toy.net0 Toy.failing_loader Toy.good_loader 5))) = 1%nat.
Proof.
  pose proof (train_failure_returns_none Toy.net0 Toy.failing_loader Toy.good_loader 5
           "mat1 and mat2 shapes cannot be multiplied"
           (snd (epochs_loop Toy.failing_loader Toy.good_loader 5 (initial_state Toy.net0))))
    as H.
  destruct H as (H1 & H2 & H3); [vm_compute; reflexivity|].
  split; [exact H1|]. split; [|exact H3].
  rewrite H2. vm_compute. reflexivity.
Defined.

(** ** Runs without epochs *)

Section NoEpochs.
Context `{FW : Framework}.

Lemma range_nonpositive n : n <= 0 -> range n = [].
Proof.
  intros Hn. unfold range.
  replace (Z.to_nat n) with 0%nat by lia. reflexivity.
Qed.

(** C8. With [epochs = 0] the call returns the history it started from:
    every metric sequence is empty, and nothing at all is printed. *)
Theorem train_zero_epochs net tl te :
  exists h,
    fst (train net tl te 0) = Some h /\
    h !! "train_loss" = Some [] /\ h !! "train_acc" = Some [] /\
    h !! "test_loss" = Some [] /\ h !! "test_acc" = Some [] /\
    stdout (snd (train net tl te 0)) = [] /\
    count_lines is_progress (stdout (snd (train net tl te 0))) = 0%nat.
Proof.
  exists initial_history. unfold train, epochs_loop. simpl.
  repeat split.
Qed.

(** C10. A negative [epochs] is not an error: [range] is empty, so the
    call does exactly what it does for [epochs = 0], returning the empty
    history and printing nothing. *)
Theorem train_negative_epochs net tl te epochs :
  epochs < 0 ->
  train net tl te epochs = train net tl te 0 /\
  fst (train net tl te epochs) = Some initial_history /\
  (forall key l, initial_history !! key = Some l -> l = []) /\
  stdout (snd (train net tl te epochs)) = [].
Proof.
  intros Hneg.
  assert (Hrun : train net tl te epochs = (Some initial_history, initial_state net)).
  { unfold train, epochs_loop. rewrite range_nonpositive by lia. reflexivity. }
  rewrite Hrun. repeat split.
  intros key l. unfold initial_history.
  rewrite !lookup_insert, lookup_empty.
  repeat case_decide; congruence.
Qed.

End NoEpochs.

Lemma train_negative_epochs_witness :
  train Toy.net0 Toy.good_loader Toy.good_loader (-3) =
    train Toy.net0 Toy.good_loader Toy.good_loader 0 /\
  fst (train Toy.net0 Toy.good_loader Toy.good_loader (-3)) = Some initial_history /\
  stdout (snd (train Toy.net0 Toy.good_loader Toy.good_loader (-3))) = [].
Proof.
  destruct (train_negative_epochs Toy.net0 Toy.good_loader Toy.good_loader (-3))
    as (H1 & H2 & _ & H4); [lia|].
  exact (conj H1 (conj H2 H4)).
Defined.

(** ** Anomalous batches *)

Section Anomalies.
Context `{FW : Framework}.

Lemma anomaly_zeroed st b : anomaly (zeroed st) b = anomaly st b.
Proof. reflexivity. Qed.

Lemma for_each_cons {X A} (body : X -> A -> M A) x xs acc :
  for_each (x :: xs) body acc = bind (body x acc) (for_each xs body).
Proof. reflexivity. Qed.

Lemma anomaly_agree st1 st2 b : agree st1 st2 -> anomaly st1 b = anomaly st2 b.
Proof. intros (Hp & Hm & Hg). unfold anomaly. rewrite Hp, Hm, Hg. reflexivity. Qed.

Lemma train_batch_skip st b t a :
  anomaly st b = Some a ->
  train_batch b t st =
    (Ok t, set_stdout (stdout st ++ [train_warning a]) (zeroed st)).
Proof.
  intros Ha. destruct b as [data target].
  unfold anomaly in Ha. simpl in Ha.
  unfold train_batch, bind, optimizer_zero_grad, call_model, lift. simpl.
  destruct (forward _ _ _ data) as [[output|]|e]; [| |discriminate].
  - destruct (criterion output target) as [[loss|]|e]; try discriminate.
    injection Ha as <-. reflexivity.
  - injection Ha as <-. reflexivity.
Qed.

Lemma eval_batch_skip st b t a :
  anomaly st b = Some a ->
  eval_batch b t st = (Ok t, set_stdout (stdout st ++ [eval_warning a]) st).
Proof.
  intros Ha. destruct b as [data target].
  unfold anomaly in Ha. simpl in Ha.
  unfold eval_batch, bind, call_model, lift. simpl.
  destruct (forward _ _ _ data) as [[output|]|e]; [| |discriminate].
  - destruct (criterion output target) as [[loss|]|e]; try discriminate.
    injection Ha as <-. reflexivity.
  - injection Ha as <-. reflexivity.
Qed.

(** C2. A batch on which the model or the criterion returns None adds
    nothing to the three running totals; one warning is printed, no
    exception is raised, and the loop goes on with the next batch.  In the
    training phase the gradients have been zeroed before the model was
    called, and neither the backward pass nor the optimizer step runs. *)
Theorem anomalous_batch_skipped st b rest t a :
  anomaly st b = Some a ->
  (train_batch b t st =
     (Ok t, set_stdout (stdout st ++ [train_warning a]) (zeroed st)) /\
   for_each (b :: rest) train_batch t st =
     for_each rest train_batch t
       (set_stdout (stdout st ++ [train_warning a]) (zeroed st))) /\
  (eval_batch b t st = (Ok t, set_stdout (stdout st ++ [eval_warning a]) st) /\
   for_each (b :: rest) eval_batch t st =
     for_each rest eval_batch t (set_stdout (stdout st ++ [eval_warning a]) st)).
Proof.
  intros Ha.
  pose proof (train_batch_skip st b t a Ha) as Htrain.
  pose proof (eval_batch_skip st b t a Ha) as Heval.
  split; (split; [assumption|]); rewrite for_each_cons; unfold bind.
  - rewrite Htrain. reflexivity.
  - rewrite Heval. reflexivity.
Qed.

End Anomalies.

(** C2 on a concrete skip: the model returns None on the first batch of
    [skipped_loader]. *)
Lemma anomalous_batch_skipped_witness :
  train_batch Toy.no_output_batch zero_totals (initial_state Toy.net0) =
    (Ok zero_totals,
     set_stdout [Warning "Warning: Model output is None."]
       (zeroed (initial_state Toy.net0))) /\
  eval_batch Toy.no_output_batch zero_totals (initial_state Toy.net0) =
    (Ok zero_totals,
     set_stdout [Warning "Warning: Model output is None during evaluation."]
       (initial_state Toy.net0)).
Proof.
  destruct (anomalous_batch_skipped (initial_state Toy.net0) Toy.no_output_batch []
              zero_totals NoOutput) as [[H1 _] [H2 _]]; [reflexivity|].
  exact (conj H1 H2).
Defined.

(** ** The shape of the history *)

Section Shape.
Context `{FW : Framework}.

Lemma lengths_lookup (h : gmap string (list Q)) key n :
  lengths h !! key = Some n <-> exists l, h !! key = Some l /\ length l = n.
Proof.
  unfold lengths. rewrite lookup_fmap. destruct (h !! key) as [l|]; simpl.
  - split; [intros [= <-]; eauto | intros (l' & [= <-] & <-); reflexivity].
  - split; [discriminate | intros (l' & [=] & _)].
Qed.

Lemma epoch_lengths_train a b :
  <["train_acc" := S a]> (<["train_loss" := S a]> (epoch_lengths a b)) =
  epoch_lengths (S a) b.
Proof.
  apply map_eq. intros key. unfold epoch_lengths.
  rewrite !lookup_insert. repeat case_decide; congruence.
Qed.

Lemma epoch_lengths_test a b :
  <["test_acc" := S b]> (<["test_loss" := S b]> (epoch_lengths a b)) =
  epoch_lengths a (S b).
Proof.
  apply map_eq. intros key. unfold epoch_lengths.
  rewrite !lookup_insert. repeat case_decide; congruence.
Qed.

(** An [append] under a key that is present cannot raise, and lengthens
    that sequence alone; nothing is printed. *)
Lemma triple_append key v (n : gmap string nat) k (P : list Line -> Prop) :
  n !! key = Some k ->
  triple (on_output (fun h out => lengths h = n /\ P out))
         (history_append key v)
         (fun _ => on_output (fun h out => lengths h = <[key := S k]> n /\ P out))
         (fun _ _ => False).
Proof.
  intros Hk st [Hn HP]. unfold history_append.
  assert (Hl : exists l, history st !! key = Some l /\ length l = k).
  { apply lengths_lookup. rewrite Hn. exact Hk. }
  destruct Hl as (l & -> & Hlen). split; [|exact HP]. simpl.
  unfold lengths. rewrite fmap_insert, length_app. simpl.
  fold (lengths (history st)). rewrite Hn. f_equal. lia.
Qed.

End Shape.

Section Epochs.
Context `{FW : Framework}.

Lemma keeps_partial {A} I (m : M A) :
  keeps I m -> triple I m (fun _ => I) (fun _ _ => True).
Proof. intros H. eapply triple_conseq; [exact H | auto..]. Qed.

Lemma keeps_warning_progress (n : gmap string nat) k msg :
  keeps (on_output (fun h out => lengths h = n /\ count_lines is_progress out = k))
        (print (Warning msg)).
Proof.
  intros st [Hn Hk]. split; [exact Hn|]. simpl.
  rewrite count_lines_app, Hk. unfold count_lines. simpl. lia.
Qed.

Lemma triple_append_partial key v (n : gmap string nat) k j :
  n !! key = Some k ->
  triple (on_output (fun h out => lengths h = n /\ count_lines is_progress out = j))
         (history_append key v)
         (fun _ => on_output (fun h out =>
            lengths h = <[key := S k]> n /\ count_lines is_progress out = j))
         (fun _ _ => True).
Proof.
  intros Hk. eapply triple_conseq.
  - apply (triple_append key v n k (fun out => count_lines is_progress out = j) Hk).
  - auto.
  - auto.
  - auto.
Qed.

(** A training phase that returns has appended one entry to each of the
    two training sequences, and to nothing else. *)
Lemma train_phase_shape tl k :
  triple (completed k) (train_phase tl) (fun _ => half_completed k) (fun _ _ => True).
Proof.
  unfold train_phase, completed, half_completed.
  eapply triple_bind; [apply keeps_partial, keeps_model_train | intros []].
  eapply triple_bind.
  { apply keeps_partial, keeps_train_batches. apply keeps_warning_progress. }
  intros t.
  eapply triple_bind; [apply keeps_partial, keeps_lift | intros train_loss].
  eapply triple_bind; [apply keeps_partial, keeps_lift | intros train_acc].
  eapply triple_bind.
  { apply (triple_append_partial "train_loss" train_loss _ k). reflexivity. }
  intros []. eapply triple_bind.
  { apply (triple_append_partial "train_acc" train_acc _ k). reflexivity. }
  intros []. apply triple_ret. intros st. unfold on_output.
  rewrite epoch_lengths_train. auto.
Qed.

(** An evaluation phase that returns has appended one entry to each of the
    two evaluation sequences. *)
Lemma eval_phase_shape te k :
  triple (half_completed k) (eval_phase te)
         (fun _ => on_output (fun h out =>
            lengths h = epoch_lengths (S k) (S k) /\ count_lines is_progress out = k))
         (fun _ _ => True).
Proof.
  unfold eval_phase, eval_pass, half_completed.
  eapply triple_bind.
  { eapply triple_bind; [apply keeps_partial, keeps_model_eval | intros []].
    eapply triple_bind.
    { apply keeps_partial, keeps_eval_batches. apply keeps_warning_progress. }
    intros t.
    eapply triple_bind; [apply keeps_partial, keeps_lift | intros test_loss].
    eapply triple_bind; [apply keeps_partial, keeps_lift | intros test_acc].
    apply keeps_partial, keeps_ret. }
  intros m. eapply triple_bind.
  { apply (triple_append_partial "test_loss" (fst m) _ k). reflexivity. }
  intros []. eapply triple_bind.
  { apply (triple_append_partial "test_acc" (snd m) _ k). reflexivity. }
  intros []. apply triple_ret. intros st. unfold on_output.
  rewrite epoch_lengths_test. auto.
Qed.

Lemma epoch_body_shape tl te epochs epoch k :
  triple (completed k) (epoch_body tl te epochs epoch tt)
         (fun _ => completed (S k)) (fun _ _ => True).
Proof.
  unfold epoch_body.
  eapply triple_bind; [apply train_phase_shape | intros tr].
  eapply triple_bind; [apply eval_phase_shape | intros ev].
  intros st [Hn Hk]. split; [exact Hn|]. simpl.
  rewrite count_lines_app, Hk. unfold count_lines. simpl. lia.
Qed.

Lemma length_range n : length (range n) = Z.to_nat n.
Proof. unfold range. rewrite length_map, length_seq. reflexivity. Qed.

(** A loop that returns has completed [range(epochs)] epochs. *)
Lemma epochs_loop_shape tl te epochs :
  triple (completed 0) (epochs_loop tl te epochs)
         (fun _ => completed (Z.to_nat epochs)) (fun _ _ => True).
Proof.
  unfold epochs_loop.
  eapply triple_conseq with (Qe' := fun _ _ => True).
  - apply (triple_for_each (epoch_body tl te epochs)
             (fun rest _ st =>
                exists k, (k + length rest)%nat = Z.to_nat epochs /\ completed k st)).
    intros epoch rest [] st (k & Hk & Hst).
    pose proof (epoch_body_shape tl te epochs epoch k st Hst) as H.
    destruct (epoch_body tl te epochs epoch () st) as [[[]|e] st']; [|trivial].
    exists (S k). split; [simpl in Hk; lia | exact H].
  - intros st Hst. exists 0%nat. rewrite length_range. split; [reflexivity | exact Hst].
  - intros [] st (k & Hk & Hst). simpl in Hk.
    replace (Z.to_nat epochs) with k by lia. exact Hst.
  - auto.
Qed.

Lemma initial_state_completed net : completed 0 (initial_state net).
Proof. split; reflexivity. Qed.

(** What [train] returns when it returns a history. *)
Lemma train_returns_completed net tl te epochs h :
  fst (train net tl te epochs) = Some h ->
  exists st, epochs_loop tl te epochs (initial_state net) = (Ok tt, st) /\
             h = history st /\ snd (train net tl te epochs) = st /\
             completed (Z.to_nat epochs) st.
Proof.
  unfold train.
  pose proof (epochs_loop_shape tl te epochs _ (initial_state_completed net)) as H.
  destruct (epochs_loop tl te epochs (initial_state net)) as [[[]|e] st]; simpl.
  - intros [= <-]. exists st. auto.
  - discriminate.
Qed.

Lemma train_returns_its_history net tl te epochs :
  Is_true (bool_decide (is_Some (fst (train net tl te epochs)))) ->
  fst (train net tl te epochs) = Some (history (snd (train net tl te epochs))).
Proof.
  intros H. apply bool_decide_unpack in H. revert H. unfold train.
  destruct (epochs_loop tl te epochs (initial_state net)) as [[[]|e] st]; simpl.
  - reflexivity.
  - intros [h Hh]. discriminate Hh.
Qed.

End Epochs.

Section ReturnedHistory.
Context `{FW : Framework}.

Lemma dom_epoch_lengths a b : dom (epoch_lengths a b) = history_keys.
Proof.
  unfold epoch_lengths, history_keys. rewrite !dom_insert_L, dom_empty_L.
  simpl. set_solver.
Qed.

Lemma size_history_keys : size history_keys = 6%nat.
Proof. vm_compute. reflexivity. Qed.

Lemma lengths_zero_lookup (h : gmap string (list Q)) key :
  lengths h !! key = Some 0%nat -> h !! key = Some [].
Proof.
  intros H. apply lengths_lookup in H as (l & Hl & Hlen).
  destruct l; [exact Hl | discriminate].
Qed.

(** C3, as the code has it.  A history is returned only when the loop ran
    through all of [range(epochs)]; each of the four sequences train_loss,
    train_acc, test_loss and test_acc then has one entry per epoch, as many
    as there are progress lines, and the sequences val_acc and val_loss
    have none. *)
Theorem returned_history_lengths net tl te epochs h :
  fst (train net tl te epochs) = Some h ->
  (forall key, key ∈ metric_keys ->
     exists l, h !! key = Some l /\ length l = Z.to_nat epochs) /\
  (exists l, h !! "val_acc" = Some l /\ length l = 0%nat) /\
  (exists l, h !! "val_loss" = Some l /\ length l = 0%nat) /\
  count_lines is_progress (stdout (snd (train net tl te epochs))) = Z.to_nat epochs /\
  (exists st, epochs_loop tl te epochs (initial_state net) = (Ok tt, st) /\
              h = history st).
Proof.
  intros Hret.
  destruct (train_returns_completed net tl te epochs h Hret)
    as (st & Hloop & -> & -> & Hlen & Hprog).
  split; [|split; [|split; [|split]]].
  - intros key Hkey. apply lengths_lookup. rewrite Hlen.
    unfold metric_keys in Hkey.
    repeat (apply elem_of_cons in Hkey as [-> | Hkey]; [reflexivity|]).
    apply elem_of_nil in Hkey. contradiction.
  - apply lengths_lookup. rewrite Hlen. reflexivity.
  - apply lengths_lookup. rewrite Hlen. reflexivity.
  - exact Hprog.
  - exists st. auto.
Qed.

(** C9. A returned history has exactly six sequences; val_acc and val_loss
    are among them and are empty, whatever the number of epochs. *)
Theorem returned_history_six_sequences net tl te epochs h :
  fst (train net tl te epochs) = Some h ->
  dom h = history_keys /\ size h = 6%nat /\
  h !! "val_acc" = Some [] /\ h !! "val_loss" = Some [].
Proof.
  intros Hret.
  destruct (train_returns_completed net tl te epochs h Hret)
    as (st & Hloop & -> & _ & Hlen & _).
  assert (Hdom : dom (history st) = history_keys).
  { rewrite <- (dom_epoch_lengths (Z.to_nat epochs) (Z.to_nat epochs)), <- Hlen.
    unfold lengths. rewrite dom_fmap_L. reflexivity. }
  split; [exact Hdom|]. split.
  - rewrite <- size_dom, Hdom. apply size_history_keys.
  - split; apply lengths_zero_lookup; rewrite Hlen; reflexivity.
Qed.

End ReturnedHistory.

(** The claim C3 as it is worded, "the length of every sequence equals N",
    fails after one epoch: val_acc is a sequence of the returned history and
    is empty. *)
Lemma every_sequence_length_counterexample :
  ~ (forall h, fst (train Toy.net0 Toy.good_loader Toy.good_loader 1) = Some h ->
       forall key l, h !! key = Some l -> length l = Z.to_nat 1).
Proof.
  intros H.
  assert (Hlen : length ([] : list Q) = Z.to_nat 1); [|discriminate Hlen].
  apply (H (history (snd (train Toy.net0 Toy.good_loader Toy.good_loader 1)))) with "val_acc".
  - apply train_returns_its_history. vm_compute. exact I.
  - vm_compute. reflexivity.
Qed.

(** The two-epoch scenario: two entries per metric, two progress lines. *)
Example two_epoch_scenario :
  length <$>
    (history (snd (train Toy.net0 Toy.scenario_train Toy.scenario_test 2)) !! "train_loss")
    = Some 2%nat /\
  length <$>
    (history (snd (train Toy.net0 Toy.scenario_train Toy.scenario_test 2)) !! "test_acc")
    = Some 2%nat /\
  stdout (snd (train Toy.net0 Toy.scenario_train Toy.scenario_test 2)) =
    [Progress 1 2 (5120 # 102400) (1000 # 100) (4 # 80) (200 # 20);
     Progress 2 2 (5120 # 102400) (1000 # 100) (4 # 80) (200 # 20)].
Proof. repeat split; vm_compute; reflexivity. Qed.

(** Inside the call, an epoch whose evaluation phase fails has already
    appended its training metrics; that history is dropped, not returned. *)
Example failed_evaluation_history :
  fst (train Toy.net0 Toy.good_loader Toy.eval_failing_loader 1) = None /\
  history (snd (train Toy.net0 Toy.good_loader Toy.eval_failing_loader 1))
    !! "train_loss" = Some [(4 # 32)%Q] /\
  history (snd (train Toy.net0 Toy.good_loader Toy.eval_failing_loader 1))
    !! "test_loss" = Some [].
Proof. repeat split; vm_compute; reflexivity. Qed.

Lemma returned_history_lengths_witness :
  exists h, fst (train Toy.net0 Toy.mixed_loader Toy.good_loader 2) = Some h /\
    (exists l, h !! "train_loss" = Some l /\ length l = 2%nat) /\
    (exists l, h !! "test_acc" = Some l /\ length l = 2%nat) /\
    (exists l, h !! "val_acc" = Some l /\ length l = 0%nat) /\
    count_lines is_progress
      (stdout (snd (train Toy.net0 Toy.mixed_loader Toy.good_loader 2))) = 2%nat.
Proof.
  exists (history (snd (train Toy.net0 Toy.mixed_loader Toy.good_loader 2))).
  assert (Hret : fst (train Toy.net0 Toy.mixed_loader Toy.good_loader 2) =
                 Some (history (snd (train Toy.net0 Toy.mixed_loader Toy.good_loader 2))))
    by (apply train_returns_its_history; vm_compute; exact I).
  split; [exact Hret|].
  destruct (returned_history_lengths _ _ _ _ _ Hret) as (Hm & Hva & _ & Hp & _).
  split; [apply Hm; repeat constructor|].
  split; [apply Hm; repeat constructor|].
  split; [exact Hva | exact Hp].
Defined.

Lemma returned_history_six_sequences_witness :
  exists h, fst (train Toy.net0 Toy.good_loader Toy.good_loader 3) = Some h /\
    size h = 6%nat /\ h !! "val_acc" = Some [] /\ h !! "val_loss" = Some [].
Proof.
  exists (history (snd (train Toy.net0 Toy.good_loader Toy.good_loader 3))).
  assert (Hret : fst (train Toy.net0 Toy.good_loader Toy.good_loader 3) =
                 Some (history (snd (train Toy.net0 Toy.good_loader Toy.good_loader 3))))
    by (apply train_returns_its_history; vm_compute; exact I).
  split; [exact Hret|].
  destruct (returned_history_six_sequences _ _ _ _ _ Hret) as (_ & Hs & Hva & Hvl).
  auto.
Defined.

(** ** The evaluation pass *)

Section Evaluation.
Context `{FW : Framework}.

Lemma untouched_refl st : untouched st st.
Proof. repeat split. Qed.

Lemma untouched_trans st1 st2 st3 :
  untouched st1 st2 -> untouched st2 st3 -> untouched st1 st3.
Proof.
  intros (H1 & H2 & H3 & H4) (K1 & K2 & K3 & K4).
  repeat split; congruence.
Qed.

Lemma untouched_agree st1 st2 st1' st2' :
  agree st1 st2 -> untouched st1 st1' -> untouched st2 st2' -> agree st1' st2'.
Proof.
  intros (H1 & H2 & H3) (K1 & K2 & _) (L1 & L2 & _).
  unfold agree. rewrite K1, K2, L1, L2. auto.
Qed.

(** A batch of the evaluation loop changes nothing but the output. *)
Lemma eval_batch_untouched b t st : untouched st (snd (eval_batch b t st)).
Proof.
  destruct b as [data target]. unfold eval_batch, bind, call_model, lift.
  destruct (forward _ _ _ data) as [[output|]|e]; simpl;
    [|repeat split|repeat split].
  destruct (criterion output target) as [[loss|]|e]; simpl; repeat split.
Qed.

(** Its result is a function of the parameters, the mode and the switch. *)
Lemma eval_batch_agree b t st1 st2 :
  agree st1 st2 -> fst (eval_batch b t st1) = fst (eval_batch b t st2).
Proof.
  intros (Hp & Hm & Hg). destruct b as [data target].
  unfold eval_batch, bind, call_model, lift. rewrite Hp, Hm, Hg.
  destruct (forward _ _ _ data) as [[output|]|e]; simpl; [|reflexivity..].
  destruct (criterion output target) as [[loss|]|e]; reflexivity.
Qed.

Lemma eval_batches_untouched bs t st :
  untouched st (snd (for_each bs eval_batch t st)).
Proof.
  revert t st. induction bs as [|b bs IH]; intros t st.
  - apply untouched_refl.
  - rewrite for_each_cons. unfold bind.
    pose proof (eval_batch_untouched b t st) as Hb.
    destruct (eval_batch b t st) as [[t'|e] st']; simpl in *.
    + eapply untouched_trans; [exact Hb | apply IH].
    + exact Hb.
Qed.

Lemma eval_batches_agree bs t st1 st2 :
  agree st1 st2 ->
  fst (for_each bs eval_batch t st1) = fst (for_each bs eval_batch t st2).
Proof.
  revert t st1 st2. induction bs as [|b bs IH]; intros t st1 st2 Hag.
  - reflexivity.
  - rewrite !for_each_cons. unfold bind.
    pose proof (eval_batch_agree b t st1 st2 Hag) as Hr.
    pose proof (eval_batch_untouched b t st1) as H1.
    pose proof (eval_batch_untouched b t st2) as H2.
    destruct (eval_batch b t st1) as [[t1|e1] st1'],
             (eval_batch b t st2) as [[t2|e2] st2']; simpl in *;
      try discriminate.
    + injection Hr as ->. apply IH. exact (untouched_agree _ _ _ _ Hag H1 H2).
    + exact Hr.
Qed.

(** The pass leaves the parameters, the gradients, the optimizer, the
    history and the autograd switch as they were; the mode is evaluation. *)
Lemma eval_pass_frame te st :
  let st' := snd (eval_pass te st) in
  m_params (model st') = m_params (model st) /\
  m_grads (model st') = m_grads (model st) /\
  m_training (model st') = false /\
  grad_enabled st' = grad_enabled st /\
  optimizer st' = optimizer st /\
  history st' = history st.
Proof.
  unfold eval_pass, bind, model_eval, no_grad, lift.
  set (st0 := set_grad_enabled false _).
  pose proof (eval_batches_untouched (batches te) zero_totals st0) as (Hm & _ & Ho & Hh).
  destruct (for_each (batches te) eval_batch zero_totals st0) as [[t|e] st']; simpl in *.
  - destruct (derive_loss te t) as [test_loss|e]; simpl.
    + destruct (derive_acc t) as [test_acc|e]; simpl;
        rewrite Hm, Ho, Hh; repeat split.
    + rewrite Hm, Ho, Hh; repeat split.
  - rewrite Hm, Ho, Hh; repeat split.
Qed.

(** The metrics of the pass are a function of the parameters and of the
    data: the pass sets the mode and the switch itself. *)
Lemma eval_pass_agree te st1 st2 :
  m_params (model st1) = m_params (model st2) ->
  fst (eval_pass te st1) = fst (eval_pass te st2).
Proof.
  intros Hp. unfold eval_pass, bind, model_eval, no_grad, lift.
  set (s1 := set_grad_enabled false _). set (s2 := set_grad_enabled false _).
  assert (Hag : agree s1 s2) by (repeat split; exact Hp).
  pose proof (eval_batches_agree (batches te) zero_totals s1 s2 Hag) as Hr.
  destruct (for_each (batches te) eval_batch zero_totals s1) as [[t1|e1] s1'],
           (for_each (batches te) eval_batch zero_totals s2) as [[t2|e2] s2'];
    simpl in *; try discriminate.
  - injection Hr as ->.
    destruct (derive_loss te t2) as [test_loss|e]; simpl; [|reflexivity].
    destruct (derive_acc t2) as [test_acc|e]; reflexivity.
  - injection Hr as ->. reflexivity.
Qed.

(** C6. The evaluation phase leaves the parameters of the model, their
    gradients and the optimizer as they were, and it computes under
    [no_grad], restoring the switch afterwards; a second evaluation pass
    after the first yields the same loss and accuracy (or the same
    failure). *)
Theorem evaluation_is_repeatable te st :
  m_params (model (snd (eval_phase te st))) = m_params (model st) /\
  m_grads (model (snd (eval_phase te st))) = m_grads (model st) /\
  optimizer (snd (eval_phase te st)) = optimizer st /\
  grad_enabled (snd (eval_phase te st)) = grad_enabled st /\
  fst (eval_pass te (snd (eval_pass te st))) = fst (eval_pass te st) /\
  fst (eval_pass te (snd (eval_phase te st))) = fst (eval_pass te st).
Proof.
  pose proof (eval_pass_frame te st) as (Hp & Hg & _ & Hs & Ho & _).
  assert (Hphase : model (snd (eval_phase te st)) = model (snd (eval_pass te st)) /\
                   optimizer (snd (eval_phase te st)) = optimizer (snd (eval_pass te st)) /\
                   grad_enabled (snd (eval_phase te st)) =
                     grad_enabled (snd (eval_pass te st))).
  { unfold eval_phase, bind.
    destruct (eval_pass te st) as [[m|e] st1]; simpl; [|auto].
    unfold history_append.
    destruct (history st1 !! "test_loss") as [l1|]; simpl; [|auto].
    rewrite lookup_insert_ne by discriminate.
    destruct (history st1 !! "test_acc") as [l2|]; simpl; auto. }
  destruct Hphase as (Hm' & Ho' & Hs').
  rewrite Hm', Ho', Hs'.
  repeat split; try assumption.
  - apply eval_pass_agree. exact Hp.
  - apply eval_pass_agree. rewrite Hm'. exact Hp.
Qed.

End Evaluation.

(** ** Epochs in which every batch is skipped *)

Section ZeroTotals.
Context `{FW : Framework}.

Lemma for_each_app {X A} (body : X -> A -> M A) xs ys acc st :
  for_each (xs ++ ys) body acc st =
  bind (for_each xs body acc) (for_each ys body) st.
Proof.
  revert acc st. induction xs as [|x xs IH]; intros acc st.
  - reflexivity.
  - simpl app. rewrite !for_each_cons. unfold bind.
    destruct (body x acc st) as [[acc'|e] st']; [|reflexivity].
    rewrite IH. reflexivity.
Qed.

Lemma range_split k epochs :
  (k < Z.to_nat epochs)%nat ->
  range epochs =
    range (Z.of_nat k) ++
    Z.of_nat k :: map Z.of_nat (seq (S k) (Z.to_nat epochs - S k)).
Proof.
  intros Hk. unfold range. rewrite Nat2Z.id.
  replace (Z.to_nat epochs) with (k + S (Z.to_nat epochs - S k))%nat at 1 by lia.
  rewrite seq_app, map_app. reflexivity.
Qed.

Lemma all_skipped_agree st1 st2 bs :
  agree st1 st2 -> all_skipped st1 bs = all_skipped st2 bs.
Proof.
  intros Hag. induction bs as [|b bs IH]; [reflexivity|].
  simpl. rewrite (anomaly_agree st1 st2 b Hag), IH. reflexivity.
Qed.

(** Skipped batches of the training loop leave the totals, the parameters,
    the optimizer and the history alone. *)
Lemma train_batches_all_skipped bs t st :
  all_skipped st bs = true ->
  exists st', for_each bs train_batch t st = (Ok t, st') /\
              agree st st' /\ history st' = history st.
Proof.
  revert st. induction bs as [|b bs IH]; intros st Hall.
  - exists st. repeat split.
  - simpl in Hall. apply andb_true_iff in Hall as [Hb Hbs].
    destruct (anomaly st b) as [a|] eqn:Ha; [|discriminate].
    rewrite for_each_cons. unfold bind. rewrite (train_batch_skip st b t a Ha).
    set (st1 := set_stdout _ _).
    assert (Hag : agree st st1) by (repeat split).
    destruct (IH st1) as (st' & Hrun & Hag' & Hh).
    { rewrite <- (all_skipped_agree st st1 bs Hag). exact Hbs. }
    exists st'. split; [exact Hrun|]. split; [|exact Hh].
    destruct Hag as (H1 & H2 & H3), Hag' as (K1 & K2 & K3).
    repeat split; congruence.
Qed.

Lemma eval_batches_all_skipped bs t st :
  all_skipped st bs = true ->
  exists st', for_each bs eval_batch t st = (Ok t, st') /\ untouched st st'.
Proof.
  revert st. induction bs as [|b bs IH]; intros st Hall.
  - exists st. split; [reflexivity | apply untouched_refl].
  - simpl in Hall. apply andb_true_iff in Hall as [Hb Hbs].
    destruct (anomaly st b) as [a|] eqn:Ha; [|discriminate].
    rewrite for_each_cons. unfold bind. rewrite (eval_batch_skip st b t a Ha).
    set (st1 := set_stdout _ _).
    assert (Hun : untouched st st1) by (repeat split).
    destruct (IH st1) as (st' & Hrun & Hun').
    { rewrite <- (all_skipped_agree st st1 bs); [exact Hbs | repeat split]. }
    exists st'. split; [exact Hrun|]. exact (untouched_trans _ _ _ Hun Hun').
Qed.

(** With no example counted, the accuracy divides by zero. *)
Lemma derive_acc_zero t :
  total t = 0%nat -> derive_acc t = Raise "float division by zero".
Proof. intros H. unfold derive_acc. rewrite H. reflexivity. Qed.

Lemma derive_zero_totals loader :
  exists e, zero_division e /\
    (derive_loss loader zero_totals = Raise e \/
     exists v, derive_loss loader zero_totals = Ok v /\
               derive_acc zero_totals = Raise e).
Proof.
  destruct (derive_loss loader zero_totals) as [v|e] eqn:Hl.
  - exists "float division by zero". split; [right; reflexivity|].
    right. exists v. split; [reflexivity | apply derive_acc_zero; reflexivity].
  - exists e. split; [|left; reflexivity].
    unfold derive_loss, py_truediv in Hl. simpl in Hl.
    destruct (Qeq_bool _ _); [|discriminate]. injection Hl as <-. left. reflexivity.
Qed.

Lemma train_phase_all_skipped tl st :
  all_skipped (training_state st) (batches tl) = true ->
  exists e st', train_phase tl st = (Raise e, st') /\ zero_division e /\
                history st' = history st.
Proof.
  intros Hall.
  destruct (train_batches_all_skipped _ zero_totals _ Hall) as (st' & Hrun & _ & Hh).
  unfold train_phase, bind, model_train, lift.
  change (set_model _ st) with (training_state st). rewrite Hrun.
  destruct (derive_zero_totals tl) as (e & Hz & [Hl | (v & Hl & Ha)]).
  - rewrite Hl. exists e, st'. auto.
  - rewrite Hl, Ha. exists e, st'. auto.
Qed.

Lemma eval_phase_all_skipped te st :
  all_skipped (evaluation_state st) (batches te) = true ->
  exists e st', eval_phase te st = (Raise e, st') /\ zero_division e /\
                history st' = history st.
Proof.
  intros Hall.
  destruct (eval_batches_all_skipped _ zero_totals _ Hall)
    as (st' & Hrun & _ & _ & _ & Hh).
  unfold eval_phase, eval_pass, bind, model_eval, no_grad, lift.
  change (set_grad_enabled false (set_model _ st)) with (evaluation_state st).
  rewrite Hrun.
  destruct (derive_zero_totals te) as (e & Hz & [Hl | (v & Hl & Ha)]).
  - rewrite Hl. eexists e, _. split; [reflexivity|]. split; [exact Hz | exact Hh].
  - rewrite Hl, Ha. eexists e, _. split; [reflexivity|]. split; [exact Hz | exact Hh].
Qed.

Lemma epoch_body_all_skipped tl te epochs epoch st :
  all_skipped (training_state st) (batches tl) = true \/
  (exists m st1, train_phase tl st = (Ok m, st1) /\
                 all_skipped (evaluation_state st1) (batches te) = true) ->
  exists e st', epoch_body tl te epochs epoch tt st = (Raise e, st') /\
                zero_division e.
Proof.
  intros [Htrain | (m & st1 & Hrun & Heval)]; unfold epoch_body, bind.
  - destruct (train_phase_all_skipped tl st Htrain) as (e & st' & -> & Hz & _).
    eauto.
  - rewrite Hrun.
    destruct (eval_phase_all_skipped te st1 Heval) as (e & st' & -> & Hz & _).
    eauto.
Qed.

(** C5. When every batch of the training phase, or of the evaluation phase,
    of some epoch is skipped, the totals of that phase are zero and the
    division raises ZeroDivisionError inside the [try] block: the handler
    catches it, prints its line and [train] returns None.  Here [k] epochs
    have completed and left the loop in state [st]. *)
Theorem zero_totals_are_caught net tl te epochs k st :
  (k < Z.to_nat epochs)%nat ->
  for_each (range (Z.of_nat k)) (epoch_body tl te epochs) tt (initial_state net)
    = (Ok tt, st) ->
  all_skipped (training_state st) (batches tl) = true \/
  (exists m st1, train_phase tl st = (Ok m, st1) /\
                 all_skipped (evaluation_state st1) (batches te) = true) ->
  exists e out,
    zero_division e /\
    fst (train net tl te epochs) = None /\
    stdout (snd (train net tl te epochs)) = out ++ [ErrorLine e] /\
    count_lines is_error out = 0%nat.
Proof.
  intros Hk Hprefix Hskip.
  destruct (epoch_body_all_skipped tl te epochs (Z.of_nat k) st Hskip)
    as (e & st' & Hbody & Hz).
  assert (Hloop : epochs_loop tl te epochs (initial_state net) = (Raise e, st')).
  { unfold epochs_loop. rewrite (range_split k epochs Hk), for_each_app.
    unfold bind at 1. rewrite Hprefix, for_each_cons. unfold bind.
    rewrite Hbody. reflexivity. }
  pose proof (epochs_loop_no_error_lines net tl te epochs) as Hquiet.
  exists e, (stdout st'). unfold train. rewrite Hloop in *. simpl in *. auto.
Qed.

End ZeroTotals.

(** C5 on a run whose training batches are all anomalous, from the first
    epoch on. *)
Lemma zero_totals_are_caught_witness :
  exists e out,
    zero_division e /\
    fst (train Toy.net0 Toy.skipped_loader Toy.good_loader 5) = None /\
    stdout (snd (train Toy.net0 Toy.skipped_loader Toy.good_loader 5)) =
      out ++ [ErrorLine e] /\
    count_lines is_error out = 0%nat.
Proof.
  apply (zero_totals_are_caught Toy.net0 Toy.skipped_loader Toy.good_loader 5 0
           (initial_state Toy.net0)).
  - vm_compute. lia.
  - reflexivity.
  - left. reflexivity.
Defined.

(** ** The derived metrics *)

Section Metrics.
Context `{FW : Framework}.

Lemma py_truediv_ok a b v :
  py_truediv a b = Ok v -> ~ py_val b == 0 /\ v = (py_val a / py_val b)%Q.
Proof.
  unfold py_truediv. destruct (Qeq_bool (py_val b) 0) eqn:Hz; [discriminate|].
  intros [= <-]. split; [|reflexivity].
  intros H. apply Qeq_bool_iff in H. congruence.
Qed.

Lemma inject_nat_nonzero n : ~ inject_Z (Z.of_nat n) == 0 -> n <> 0%nat.
Proof. intros H ->. apply H. reflexivity. Qed.

Lemma derive_loss_ok loader t v :
  derive_loss loader t = Ok v ->
  dataset_len loader <> 0%nat /\
  v = (py_val (loss_sum t) / inject_Z (Z.of_nat (dataset_len loader)))%Q.
Proof.
  intros H. apply py_truediv_ok in H as [Hz ->].
  split; [apply inject_nat_nonzero; exact Hz | reflexivity].
Qed.

Lemma derive_acc_ok t v :
  derive_acc t = Ok v ->
  total t <> 0%nat /\
  v = (100 * inject_Z (Z.of_nat (correct t)) / inject_Z (Z.of_nat (total t)))%Q /\
  v == inject_Z (Z.of_nat (correct t)) / inject_Z (Z.of_nat (total t)) * 100.
Proof.
  intros H. apply py_truediv_ok in H as [Hz ->]. simpl in *.
  split; [apply inject_nat_nonzero; exact Hz|]. split; [reflexivity|].
  unfold Qdiv. ring.
Qed.

Lemma bind_ok {A B} (m : M A) (k : A -> M B) st b st' :
  bind m k st = (Ok b, st') ->
  exists a st1, m st = (Ok a, st1) /\ k a st1 = (Ok b, st').
Proof.
  unfold bind. destruct (m st) as [[a|e] st1]; [eauto | discriminate].
Qed.

Lemma lift_ok {A} (r : Result A) st a st' :
  lift r st = (Ok a, st') -> r = Ok a /\ st' = st.
Proof. unfold lift. intros [= -> ->]. auto. Qed.

Lemma history_append_ok key v st u st' :
  history_append key v st = (Ok u, st') ->
  exists l, history st !! key = Some l /\
            st' = set_history (<[key := l ++ [v]]> (history st)) st.
Proof.
  unfold history_append. destruct (history st !! key) as [l|]; [|discriminate].
  intros [= _ <-]. eauto.
Qed.

Lemma train_batches_history bs t st :
  history (snd (for_each bs train_batch t st)) = history st.
Proof.
  pose proof (keeps_train_batches (fun h _ => h = history st)) as H.
  specialize (H ltac:(intros msg s Hs; exact Hs) bs t st eq_refl).
  destruct (for_each bs train_batch t st) as [[t'|e] st']; exact H.
Qed.

(** What a training phase that returns has done. *)
Lemma train_phase_ok tl st m st' :
  train_phase tl st = (Ok m, st') ->
  exists t st1 l1 l2,
    for_each (batches tl) train_batch zero_totals (training_state st) = (Ok t, st1) /\
    derive_loss tl t = Ok (fst m) /\ derive_acc t = Ok (snd m) /\
    history st !! "train_loss" = Some l1 /\
    history st !! "train_acc" = Some l2 /\
    st' = set_history (<["train_acc" := l2 ++ [snd m]]>
                         (<["train_loss" := l1 ++ [fst m]]> (history st))) st1.
Proof.
  unfold train_phase. intros H.
  apply bind_ok in H as ([] & s0 & [= <-] & H).
  apply bind_ok in H as (t & st1 & Hloop & H).
  apply bind_ok in H as (train_loss & s2 & Hl & H). apply lift_ok in Hl as [Hl ->].
  apply bind_ok in H as (train_acc & s3 & Ha & H). apply lift_ok in Ha as [Ha ->].
  apply bind_ok in H as ([] & s4 & H1 & H).
  apply bind_ok in H as ([] & s5 & H2 & H).
  injection H as <- <-.
  apply history_append_ok in H1 as (l1 & Hl1 & ->).
  apply history_append_ok in H2 as (l2 & Hl2 & ->).
  simpl in Hl2. rewrite lookup_insert_ne in Hl2 by discriminate.
  pose proof (train_batches_history (batches tl) zero_totals (training_state st)) as Hh.
  change (set_model _ st) with (training_state st) in Hloop.
  rewrite Hloop in Hh. simpl in Hh. rewrite Hh in *.
  exists t, st1, l1, l2. repeat split; assumption.
Qed.

(** What an evaluation phase that returns has done. *)
Lemma eval_phase_ok te st m st' :
  eval_phase te st = (Ok m, st') ->
  exists t st1 l1 l2,
    for_each (batches te) eval_batch zero_totals (evaluation_state st) = (Ok t, st1) /\
    derive_loss te t = Ok (fst m) /\ derive_acc t = Ok (snd m) /\
    history st !! "test_loss" = Some l1 /\
    history st !! "test_acc" = Some l2 /\
    st' = set_history (<["test_acc" := l2 ++ [snd m]]>
                         (<["test_loss" := l1 ++ [fst m]]> (history st)))
            (set_grad_enabled (grad_enabled st) st1).
Proof.
  unfold eval_phase, eval_pass. intros H.
  apply bind_ok in H as (m' & s1 & Hpass & H).
  apply bind_ok in Hpass as ([] & s0 & [= <-] & Hpass).
  apply bind_ok in Hpass as (t & s2 & Hloop & Hpass).
  apply bind_ok in Hpass as (test_loss & s3 & Hl & Hpass). apply lift_ok in Hl as [Hl ->].
  apply bind_ok in Hpass as (test_acc & s4 & Ha & Hpass). apply lift_ok in Ha as [Ha ->].
  injection Hpass as <- <-.
  apply bind_ok in H as ([] & s5 & H1 & H).
  apply bind_ok in H as ([] & s6 & H2 & H).
  injection H as <- <-.
  apply history_append_ok in H1 as (l1 & Hl1 & ->).
  apply history_append_ok in H2 as (l2 & Hl2 & ->).
  simpl in Hl2. rewrite lookup_insert_ne in Hl2 by discriminate.
  unfold no_grad in Hloop.
  change (set_grad_enabled false (set_model _ st)) with (evaluation_state st) in Hloop.
  pose proof (eval_batches_untouched (batches te) zero_totals (evaluation_state st))
    as (_ & _ & _ & Hh).
  destruct (for_each (batches te) eval_batch zero_totals (evaluation_state st))
    as [[t'|e] st1]; [|discriminate].
  injection Hloop as -> <-. simpl in *. rewrite Hh in *.
  exists t, st1, l1, l2. repeat split; assumption.
Qed.

Lemma returns_unit (m : M unit) st :
  Is_true (match fst (m st) with Ok _ => true | Raise _ => false end) ->
  m st = (Ok tt, snd (m st)).
Proof. destruct (m st) as [[[]|e] st']; simpl; [reflexivity | contradiction]. Qed.

(** C4. In an epoch that completes, the training loss appended to the
    history is the running loss sum of the training loop divided by
    [len(train_loader.dataset)], and the training accuracy is the count of
    correct predictions divided by the count of examples seen, times 100;
    the two evaluation metrics are derived in the same way from the totals
    of the evaluation loop.  Both denominators are non-zero.  [tr] and [ev]
    are the totals with which the two batch loops end. *)
Theorem epoch_metrics tl te epochs epoch st st' :
  epoch_body tl te epochs epoch tt st = (Ok tt, st') ->
  exists (tr ev : Totals) (st1 st2 : State)
         (train_loss train_acc test_loss test_acc : Q),
    for_each (batches tl) train_batch zero_totals (training_state st)
      = (Ok tr, st1) /\
    for_each (batches te) eval_batch zero_totals
      (evaluation_state (snd (train_phase tl st))) = (Ok ev, st2) /\
    (dataset_len tl <> 0 /\ total tr <> 0 /\
     dataset_len te <> 0 /\ total ev <> 0)%nat /\
    train_loss = (py_val (loss_sum tr) / inject_Z (Z.of_nat (dataset_len tl)))%Q /\
    train_acc ==
      inject_Z (Z.of_nat (correct tr)) / inject_Z (Z.of_nat (total tr)) * 100 /\
    test_loss = (py_val (loss_sum ev) / inject_Z (Z.of_nat (dataset_len te)))%Q /\
    test_acc ==
      inject_Z (Z.of_nat (correct ev)) / inject_Z (Z.of_nat (total ev)) * 100 /\
    appended (history st) (history st') "train_loss" train_loss /\
    appended (history st) (history st') "train_acc" train_acc /\
    appended (history st) (history st') "test_loss" test_loss /\
    appended (history st) (history st') "test_acc" test_acc /\
    stdout st' =
      stdout st2 ++ [Progress (epoch + 1) epochs train_loss train_acc test_loss test_acc].
Proof.
  unfold epoch_body. intros H.
  apply bind_ok in H as (mt & sa & Htrain & H).
  apply bind_ok in H as (me & sb & Heval & H).
  injection H as <-.
  rewrite Htrain. simpl.
  apply train_phase_ok in Htrain as (tr & st1 & l1 & l2 & Hloop1 & Hl1 & Ha1 & Hk1 & Hk2 & ->).
  apply eval_phase_ok in Heval as (ev & st2 & l3 & l4 & Hloop2 & Hl2 & Ha2 & Hk3 & Hk4 & ->).
  apply derive_loss_ok in Hl1 as [Hn1 Hv1], Hl2 as [Hn2 Hv2].
  apply derive_acc_ok in Ha1 as (Hn3 & _ & Hv3), Ha2 as (Hn4 & _ & Hv4).
  simpl in Hk3, Hk4. rewrite !lookup_insert_ne in Hk3, Hk4 by discriminate.
  exists tr, ev, st1, st2, (fst mt), (snd mt), (fst me), (snd me).
  split; [exact Hloop1|]. split; [exact Hloop2|]. split; [auto|].
  do 4 (split; [assumption|]).
  unfold appended. simpl.
  split; [exists l1; split; [exact Hk1|]|].
  { rewrite !lookup_insert_ne by discriminate. apply lookup_insert_eq. }
  split; [exists l2; split; [exact Hk2|]|].
  { rewrite !lookup_insert_ne by discriminate. apply lookup_insert_eq. }
  split; [exists l3; split; [exact Hk3|]|].
  { rewrite !lookup_insert_ne by discriminate. apply lookup_insert_eq. }
  split; [exists l4; split; [exact Hk4|]|].
  { apply lookup_insert_eq. }
  reflexivity.
Qed.

End Metrics.

(** C4 on the first epoch of a run over well-formed batches. *)
Lemma epoch_metrics_witness :
  exists (tr ev : Totals) (train_loss train_acc test_loss test_acc : Q),
    (total tr <> 0 /\ total ev <> 0)%nat /\
    train_loss = (py_val (loss_sum tr) / inject_Z (Z.of_nat (dataset_len Toy.good_loader)))%Q /\
    train_acc ==
      inject_Z (Z.of_nat (correct tr)) / inject_Z (Z.of_nat (total tr)) * 100 /\
    test_loss = (py_val (loss_sum ev) / inject_Z (Z.of_nat (dataset_len Toy.mixed_loader)))%Q /\
    test_acc ==
      inject_Z (Z.of_nat (correct ev)) / inject_Z (Z.of_nat (total ev)) * 100 /\
    appended initial_history
      (history (snd (epoch_body Toy.good_loader Toy.mixed_loader 2 0 tt
                       (initial_state Toy.net0))))
      "train_loss" train_loss /\
    appended initial_history
      (history (snd (epoch_body Toy.good_loader Toy.mixed_loader 2 0 tt
                       (initial_state Toy.net0))))
      "test_acc" test_acc.
Proof.
  destruct (epoch_metrics Toy.good_loader Toy.mixed_loader 2 0 (initial_state Toy.net0)
              (snd (epoch_body Toy.good_loader Toy.mixed_loader 2 0 tt
                      (initial_state Toy.net0))))
    as (tr & ev & st1 & st2 & v1 & v2 & v3 & v4 & _ & _ & (_ & Ht1 & _ & Ht2) &
        H1 & H2 & H3 & H4 & A1 & _ & _ & A4 & _).
  { apply returns_unit. vm_compute. exact I. }
  exists tr, ev, v1, v2, v3, v4. auto 10.
Defined.

(** ** The range of the recorded values *)

Section Bounds.
Context `{FW : Framework}.

(** What the loop relies on from the framework: a cross-entropy loss is
    never negative, and a batch has no more correct predictions than it
    has examples. *)
Hypothesis loss_nonneg :
  forall output target loss,
    criterion output target = Ok (Some loss) -> (0 <= item loss)%Q.
Hypothesis correct_le_size :
  forall output target, (num_correct output target <= size0 target)%nat.

Lemma good_zero_totals : good_totals zero_totals.
Proof. split; [apply Qle_refl | apply Nat.le_refl]. Qed.

Lemma accumulate_good loss output target t :
  criterion output target = Ok (Some loss) ->
  good_totals t -> good_totals (accumulate loss output target t).
Proof.
  intros Hl [Hs Hc]. pose proof (loss_nonneg _ _ _ Hl) as Hi.
  pose proof (correct_le_size output target) as Hle.
  split; simpl.
  - destruct (loss_sum t) as [z|q]; simpl in *; lra.
  - lia.
Qed.

Lemma train_batch_good b t st :
  good_totals t ->
  match fst (train_batch b t st) with
  | Ok t' => good_totals t'
  | Raise _ => True
  end.
Proof.
  intros Ht. destruct b as [data target].
  unfold train_batch, bind, optimizer_zero_grad, call_model, lift. simpl.
  destruct (forward _ _ _ data) as [[output|]|e]; simpl; [|exact Ht|exact I].
  destruct (criterion output target) as [[loss|]|e] eqn:Hl; simpl;
    [|exact Ht|exact I].
  unfold loss_backward. simpl.
  destruct (backward _ _ loss) as [g|e]; simpl; [|exact I].
  unfold optimizer_step. simpl.
  destruct (adam_step _ _ _) as [[o p]|e]; simpl; [|exact I].
  apply accumulate_good; assumption.
Qed.

Lemma eval_batch_good b t st :
  good_totals t ->
  match fst (eval_batch b t st) with
  | Ok t' => good_totals t'
  | Raise _ => True
  end.
Proof.
  intros Ht. destruct b as [data target].
  unfold eval_batch, bind, call_model, lift. simpl.
  destruct (forward _ _ _ data) as [[output|]|e]; simpl; [|exact Ht|exact I].
  destruct (criterion output target) as [[loss|]|e] eqn:Hl; simpl;
    [|exact Ht|exact I].
  apply accumulate_good; assumption.
Qed.

(** A loop whose body keeps the totals good ends with good totals. *)
Lemma for_each_good (body : Data * Target -> Totals -> M Totals) bs t st :
  (forall b t st, good_totals t ->
     match fst (body b t st) with Ok t' => good_totals t' | Raise _ => True end) ->
  good_totals t ->
  match fst (for_each bs body t st) with
  | Ok t' => good_totals t'
  | Raise _ => True
  end.
Proof.
  intros Hbody. revert t st. induction bs as [|b bs IH]; intros t st Ht.
  - exact Ht.
  - rewrite for_each_cons. unfold bind.
    specialize (Hbody b t st Ht).
    destruct (body b t st) as [[t'|e] st']; simpl in *; [apply IH; exact Hbody | exact I].
Qed.

Lemma inject_nat_pos n : n <> 0%nat -> (0 < inject_Z (Z.of_nat n))%Q.
Proof.
  intros Hn. change 0%Q with (inject_Z 0). rewrite <- Zlt_Qlt. lia.
Qed.

Lemma derive_loss_bound loader t v :
  good_totals t -> derive_loss loader t = Ok v -> (0 <= v)%Q.
Proof.
  intros [Hs _] H. apply derive_loss_ok in H as [Hn ->].
  apply Qle_shift_div_l; [apply inject_nat_pos; exact Hn|]. lra.
Qed.

Lemma derive_acc_bound t v :
  good_totals t -> derive_acc t = Ok v -> (0 <= v)%Q /\ (v <= 100)%Q.
Proof.
  intros [_ Hc] H. apply derive_acc_ok in H as (Hn & -> & _).
  pose proof (inject_nat_pos _ Hn) as Hpos.
  assert (H0 : (0 <= inject_Z (Z.of_nat (correct t)))%Q).
  { change 0%Q with (inject_Z 0). rewrite <- Zle_Qle. lia. }
  assert (Hle : (inject_Z (Z.of_nat (correct t)) <= inject_Z (Z.of_nat (total t)))%Q).
  { rewrite <- Zle_Qle. lia. }
  split.
  - apply Qle_shift_div_l; [exact Hpos | lra].
  - apply Qle_shift_div_r; [exact Hpos | lra].
Qed.

Ltac not_a_key H :=
  repeat (apply elem_of_cons in H as [H|H]; [discriminate H|]);
  apply elem_of_nil in H; contradiction.

Lemma value_ok_loss key v :
  key ∈ loss_keys -> ~ key ∈ acc_keys -> (0 <= v)%Q -> value_ok key v.
Proof. intros _ Hna Hv. split; [intros Ha; contradiction | auto]. Qed.

Lemma value_ok_acc key v :
  key ∈ acc_keys -> ~ key ∈ loss_keys -> (0 <= v)%Q /\ (v <= 100)%Q -> value_ok key v.
Proof. intros _ Hnl Hv. split; [auto | intros Hl; contradiction]. Qed.

Lemma keeps_append_bounded key v :
  value_ok key v ->
  keeps (on_output (fun h _ => bounded h)) (history_append key v).
Proof.
  intros Hv st Hb. unfold history_append.
  destruct (history st !! key) as [l|] eqn:Hl; [|exact Hb].
  intros key' l' Hl'. simpl in Hl'.
  destruct (decide (key = key')) as [<-|Hne].
  - rewrite lookup_insert_eq in Hl'. injection Hl' as <-.
    apply Forall_app. split; [exact (Hb key l Hl)|].
    constructor; [exact Hv | constructor].
  - rewrite lookup_insert_ne in Hl' by exact Hne. exact (Hb key' l' Hl').
Qed.

(** The two appends of a phase, given totals that are good. *)
Lemma triple_derive_append loader t loss_key acc_key :
  good_totals t ->
  loss_key ∈ loss_keys -> ~ loss_key ∈ acc_keys ->
  acc_key ∈ acc_keys -> ~ acc_key ∈ loss_keys ->
  keeps (on_output (fun h _ => bounded h))
    (do loss <- lift (derive_loss loader t);
     do acc <- lift (derive_acc t);
     do_ history_append loss_key loss;
     do_ history_append acc_key acc;
     ret (loss, acc)).
Proof.
  intros Ht Hl Hl' Ha Ha' st Hb. unfold bind, lift, ret.
  destruct (derive_loss loader t) as [loss|e] eqn:Hloss; [|exact Hb].
  destruct (derive_acc t) as [acc|e] eqn:Hacc; [|exact Hb].
  pose proof (derive_loss_bound _ _ _ Ht Hloss) as Hv1.
  pose proof (derive_acc_bound _ _ Ht Hacc) as Hv2.
  pose proof (keeps_append_bounded loss_key loss
                (value_ok_loss _ _ Hl Hl' Hv1) st Hb) as H1.
  destruct (history_append loss_key loss st) as [[[]|e] s1]; [|exact H1].
  pose proof (keeps_append_bounded acc_key acc
                (value_ok_acc _ _ Ha Ha' Hv2) s1 H1) as H2.
  destruct (history_append acc_key acc s1) as [[[]|e] s2]; exact H2.
Qed.

Lemma keeps_warning_bounded msg :
  keeps (on_output (fun h _ => bounded h)) (print (Warning msg)).
Proof. intros st Hb. exact Hb. Qed.

Lemma keeps_train_phase_bounded tl :
  keeps (on_output (fun h _ => bounded h)) (train_phase tl).
Proof.
  unfold train_phase.
  apply keeps_bind; [apply keeps_model_train | intros []].
  intros st Hb. unfold bind at 1.
  pose proof (keeps_train_batches _ keeps_warning_bounded (batches tl) zero_totals st Hb)
    as Hkeep.
  pose proof (for_each_good train_batch (batches tl) zero_totals st
                train_batch_good good_zero_totals) as Hgood.
  destruct (for_each (batches tl) train_batch zero_totals st) as [[t|e] s1];
    simpl in *; [|exact Hkeep].
  apply (triple_derive_append tl t "train_loss" "train_acc" Hgood); try exact Hkeep.
  - repeat constructor.
  - intros H. not_a_key H.
  - repeat constructor.
  - intros H. not_a_key H.
Qed.

Lemma keeps_eval_phase_bounded te :
  keeps (on_output (fun h _ => bounded h)) (eval_phase te).
Proof.
  intros st Hb. unfold eval_phase, eval_pass, bind, model_eval, no_grad, ret, lift.
  set (st0 := set_grad_enabled false _).
  pose proof (keeps_for_each _ eval_batch (batches te) zero_totals
                (fun b t => keeps_eval_batch _ keeps_warning_bounded b t) st0 Hb)
    as Hkeep.
  pose proof (for_each_good eval_batch (batches te) zero_totals st0
                eval_batch_good good_zero_totals) as Hgood.
  destruct (for_each (batches te) eval_batch zero_totals st0) as [[t|e] s1];
    simpl in *; [|exact Hkeep].
  assert (Hb1 : on_output (fun h _ => bounded h) (set_grad_enabled (grad_enabled st) s1))
    by exact Hkeep.
  pose proof (triple_derive_append te t "test_loss" "test_acc" Hgood) as H.
  specialize (H ltac:(repeat constructor) ltac:(intros K; not_a_key K)
                ltac:(repeat constructor) ltac:(intros K; not_a_key K) _ Hb1).
  unfold bind, lift, ret in H.
  destruct (derive_loss te t) as [loss|e]; [|exact H].
  destruct (derive_acc t) as [acc|e]; [|exact H]. simpl.
  destruct (history_append "test_loss" loss _) as [[[]|e] s2]; [|exact H].
  destruct (history_append "test_acc" acc s2) as [[[]|e] s3]; exact H.
Qed.

Lemma keeps_epochs_loop_bounded tl te epochs :
  keeps (on_output (fun h _ => bounded h)) (epochs_loop tl te epochs).
Proof.
  unfold epochs_loop. apply keeps_for_each. intros epoch []. unfold epoch_body.
  apply keeps_bind; [apply keeps_train_phase_bounded | intros tr].
  apply keeps_bind; [apply keeps_eval_phase_bounded | intros ev].
  intros st Hb. exact Hb.
Qed.

Lemma initial_history_bounded : bounded initial_history.
Proof.
  intros key l. unfold initial_history.
  rewrite !lookup_insert, lookup_empty.
  repeat case_decide; intros [= <-]; constructor.
Qed.


End Bounds.



(** * Further properties of [train] *)

(** ** The autograd switch and the mode of the model *)

Section Modes.
Context `{FW : Framework}.

Lemma keeps_grad_train_batch g b t : keeps (grad_is g) (train_batch b t).
Proof.
  destruct b as [data target]. intros st Hg.
  unfold train_batch, bind, optimizer_zero_grad, call_model, lift. simpl.
  destruct (forward _ _ _ data) as [[output|]|e]; simpl; [|exact Hg|exact Hg].
  destruct (criterion output target) as [[loss|]|e]; simpl; [|exact Hg|exact Hg].
  unfold loss_backward. simpl.
  destruct (backward _ _ loss) as [gr|e]; simpl; [|exact Hg].
  unfold optimizer_step. simpl.
  destruct (adam_step _ _ _) as [[o p]|e]; exact Hg.
Qed.

(** Whatever its body does, [no_grad] puts the switch back. *)
Lemma keeps_grad_no_grad {A} g (body : M A) : keeps (grad_is g) (no_grad body).
Proof.
  intros st Hg. unfold no_grad.
  destruct (body (set_grad_enabled false st)) as [[a|e] st']; exact Hg.
Qed.

Lemma keeps_grad_append g key v : keeps (grad_is g) (history_append key v).
Proof.
  intros st Hg. unfold history_append.
  destruct (history st !! key); exact Hg.
Qed.

Lemma keeps_grad_print g l : keeps (grad_is g) (print l).
Proof. intros st Hg. exact Hg. Qed.

Lemma keeps_grad_train_phase g tl : keeps (grad_is g) (train_phase tl).
Proof.
  unfold train_phase.
  apply keeps_bind; [intros st Hg; exact Hg | intros []].
  apply keeps_bind; [apply keeps_for_each; intros; apply keeps_grad_train_batch|].
  intros t. apply keeps_bind; [apply keeps_lift | intros train_loss].
  apply keeps_bind; [apply keeps_lift | intros train_acc].
  apply keeps_bind; [apply keeps_grad_append | intros []].
  apply keeps_bind; [apply keeps_grad_append | intros []].
  apply keeps_ret.
Qed.

Lemma keeps_grad_eval_phase g te : keeps (grad_is g) (eval_phase te).
Proof.
  unfold eval_phase, eval_pass.
  apply keeps_bind.
  { apply keeps_bind; [intros st Hg; exact Hg | intros []].
    apply keeps_bind; [apply keeps_grad_no_grad | intros t].
    apply keeps_bind; [apply keeps_lift | intros test_loss].
    apply keeps_bind; [apply keeps_lift | intros test_acc].
    apply keeps_ret. }
  intros m. apply keeps_bind; [apply keeps_grad_append | intros []].
  apply keeps_bind; [apply keeps_grad_append | intros []].
  apply keeps_ret.
Qed.

Lemma keeps_grad_epochs_loop g tl te epochs :
  keeps (grad_is g) (epochs_loop tl te epochs).
Proof.
  unfold epochs_loop. apply keeps_for_each. intros epoch []. unfold epoch_body.
  apply keeps_bind; [apply keeps_grad_train_phase | intros tr].
  apply keeps_bind; [apply keeps_grad_eval_phase | intros ev].
  apply keeps_grad_print.
Qed.

(** X1. The loop leaves the autograd switch as it found it, whether it
    returns or raises, also when the exception comes from inside the
    [no_grad] block; after [train] the switch is on as before. *)
Theorem grad_mode_restored net tl te epochs st :
  grad_enabled (snd (epochs_loop tl te epochs st)) = grad_enabled st /\
  grad_enabled (snd (train net tl te epochs)) = grad_enabled (initial_state net).
Proof.
  split.
  - pose proof (keeps_grad_epochs_loop (grad_enabled st) tl te epochs st eq_refl) as H.
    destruct (epochs_loop tl te epochs st) as [[[]|e] st']; exact H.
  - pose proof (keeps_grad_epochs_loop true tl te epochs (initial_state net) eq_refl) as H.
    unfold train.
    destruct (epochs_loop tl te epochs (initial_state net)) as [[[]|e] st']; exact H.
Qed.

(** An epoch that completes ends in evaluation mode. *)
Lemma epoch_body_eval_mode tl te epochs epoch st st' :
  epoch_body tl te epochs epoch tt st = (Ok tt, st') ->
  m_training (model st') = false.
Proof.
  unfold epoch_body. intros H.
  apply bind_ok in H as (mt & sa & _ & H).
  apply bind_ok in H as (me & sb & Heval & H).
  injection H as <-.
  apply eval_phase_ok in Heval as (t & s1 & l1 & l2 & Hloop & _ & _ & _ & _ & ->).
  pose proof (eval_batches_untouched (batches te) zero_totals (evaluation_state sa))
    as (Hm & _).
  rewrite Hloop in Hm. simpl in *. rewrite Hm. reflexivity.
Qed.

Lemma epochs_eval_mode tl te epochs xs st st' :
  xs <> [] ->
  for_each xs (epoch_body tl te epochs) tt st = (Ok tt, st') ->
  m_training (model st') = false.
Proof.
  revert st. induction xs as [|x xs IH]; intros st Hne H; [contradiction|].
  rewrite for_each_cons in H. apply bind_ok in H as ([] & s1 & Hbody & H).
  destruct xs as [|y ys].
  - injection H as <-. eapply epoch_body_eval_mode; exact Hbody.
  - apply (IH s1); [discriminate | exact H].
Qed.

(** X2. A run of at least one epoch that returns a history leaves the
    model in evaluation mode, whatever mode it was passed in. *)
Theorem returned_model_in_eval_mode net tl te epochs h :
  0 < epochs ->
  fst (train net tl te epochs) = Some h ->
  m_training (model (snd (train net tl te epochs))) = false.
Proof.
  intros Hpos. unfold train.
  destruct (epochs_loop tl te epochs (initial_state net)) as [[[]|e] st] eqn:Hloop;
    simpl; [|discriminate].
  intros _. unfold epochs_loop in Hloop.
  apply (epochs_eval_mode tl te epochs (range epochs) (initial_state net)); [|exact Hloop].
  intros Hnil. apply (f_equal length) in Hnil. rewrite length_range in Hnil.
  simpl in Hnil. lia.
Qed.

End Modes.

Lemma returned_model_in_eval_mode_witness :
  m_training (model (snd (train Plain.plain_net Plain.plain_train Plain.plain_test 2)))
    = false.
Proof.
  apply (returned_model_in_eval_mode Plain.plain_net Plain.plain_train Plain.plain_test 2
           (history (snd (train Plain.plain_net Plain.plain_train Plain.plain_test 2)))).
  - lia.
  - apply train_returns_its_history. vm_compute. exact I.
Defined.

(** ** The history and the progress lines of a run that fails *)

Section Sync.
Context `{FW : Framework}.

Lemma triple_append_sure key v (n : gmap string nat) k j Qe :
  n !! key = Some k ->
  triple (on_output (fun h out => lengths h = n /\ count_lines is_progress out = j))
         (history_append key v)
         (fun _ => on_output (fun h out =>
            lengths h = <[key := S k]> n /\ count_lines is_progress out = j))
         Qe.
Proof.
  intros Hk. eapply triple_conseq.
  - apply (triple_append key v n k (fun out => count_lines is_progress out = j) Hk).
  - auto.
  - auto.
  - intros e st [].
Qed.

(** A training phase that raises has appended nothing. *)
Lemma train_phase_sync tl k :
  triple (completed k) (train_phase tl)
         (fun _ => half_completed k) (fun _ => completed k).
Proof.
  unfold train_phase, completed, half_completed.
  eapply triple_bind; [apply keeps_model_train | intros []].
  eapply triple_bind.
  { apply keeps_train_batches. apply keeps_warning_progress. }
  intros t.
  eapply triple_bind; [apply keeps_lift | intros train_loss].
  eapply triple_bind; [apply keeps_lift | intros train_acc].
  eapply triple_bind.
  { apply (triple_append_sure "train_loss" train_loss _ k). reflexivity. }
  intros []. eapply triple_bind.
  { apply (triple_append_sure "train_acc" train_acc _ k). reflexivity. }
  intros []. apply triple_ret. intros st. unfold on_output.
  rewrite epoch_lengths_train. auto.
Qed.

(** An evaluation phase that raises has appended nothing either: the
    training sequences stay one entry ahead. *)
Lemma eval_phase_sync te k :
  triple (half_completed k) (eval_phase te)
         (fun _ => on_output (fun h out =>
            lengths h = epoch_lengths (S k) (S k) /\ count_lines is_progress out = k))
         (fun _ => half_completed k).
Proof.
  unfold eval_phase, eval_pass, half_completed.
  eapply triple_bind.
  { eapply triple_bind; [apply keeps_model_eval | intros []].
    eapply triple_bind.
    { apply keeps_eval_batches. apply keeps_warning_progress. }
    intros t.
    eapply triple_bind; [apply keeps_lift | intros test_loss].
    eapply triple_bind; [apply keeps_lift | intros test_acc].
    apply keeps_ret. }
  intros m. eapply triple_bind.
  { apply (triple_append_sure "test_loss" (fst m) _ k). reflexivity. }
  intros []. eapply triple_bind.
  { apply (triple_append_sure "test_acc" (snd m) _ k). reflexivity. }
  intros []. apply triple_ret. intros st. unfold on_output.
  rewrite epoch_lengths_test. auto.
Qed.

Lemma epoch_body_sync tl te epochs epoch k :
  triple (completed k) (epoch_body tl te epochs epoch tt)
         (fun _ => completed (S k))
         (fun _ st => completed k st \/ half_completed k st).
Proof.
  unfold epoch_body.
  eapply triple_bind with (R := fun _ => half_completed k).
  { eapply triple_conseq; [apply (train_phase_sync tl k) | | |]; simpl; auto. }
  intros tr.
  eapply triple_bind
    with (R := fun _ => on_output (fun h out =>
            lengths h = epoch_lengths (S k) (S k) /\ count_lines is_progress out = k)).
  { eapply triple_conseq; [apply (eval_phase_sync te k) | | |]; simpl; auto. }
  intros ev st [Hn Hk]. split; [exact Hn|]. simpl.
  rewrite count_lines_app, Hk. unfold count_lines. simpl. lia.
Qed.

Lemma epochs_loop_sync tl te epochs :
  triple (completed 0) (epochs_loop tl te epochs)
         (fun _ => completed (Z.to_nat epochs))
         (fun _ st => exists k, (k < Z.to_nat epochs)%nat /\
                                (completed k st \/ half_completed k st)).
Proof.
  unfold epochs_loop.
  eapply triple_conseq
    with (Qe' := fun _ st => exists k, (k < Z.to_nat epochs)%nat /\
                                       (completed k st \/ half_completed k st)).
  - apply (triple_for_each (epoch_body tl te epochs)
             (fun rest _ st =>
                exists k, (k + length rest)%nat = Z.to_nat epochs /\ completed k st)).
    intros epoch rest [] st (k & Hk & Hst).
    pose proof (epoch_body_sync tl te epochs epoch k st Hst) as H.
    simpl in Hk.
    destruct (epoch_body tl te epochs epoch () st) as [[[]|e] st'].
    + exists (S k). split; [lia | exact H].
    + exists k. split; [lia | exact H].
  - intros st Hst. exists 0%nat. rewrite length_range. split; [reflexivity | exact Hst].
  - intros [] st (k & Hk & Hst). simpl in Hk.
    replace (Z.to_nat epochs) with k by lia. exact Hst.
  - auto.
Qed.

(** X3. At the end of every run, with [k] the number of progress lines
    printed: a run that returns has printed one line per epoch and holds
    [k] entries in each of the four metric sequences; a run that fails has
    completed fewer epochs than asked, its two evaluation sequences hold
    [k] entries and its two training sequences hold [k] entries, or [k + 1]
    when the failure came after the training metrics were appended. *)
Theorem history_in_step_with_progress net tl te epochs :
  let st := snd (train net tl te epochs) in
  let k := count_lines is_progress (stdout st) in
  (fst (train net tl te epochs) = Some (history st) /\
   k = Z.to_nat epochs /\ lengths (history st) = epoch_lengths k k) \/
  (fst (train net tl te epochs) = None /\
   (k < Z.to_nat epochs)%nat /\
   (lengths (history st) = epoch_lengths k k \/
    lengths (history st) = epoch_lengths (S k) k)).
Proof.
  pose proof (epochs_loop_sync tl te epochs _ (initial_state_completed net)) as H.
  unfold train.
  destruct (epochs_loop tl te epochs (initial_state net)) as [[[]|e] st]; simpl.
  - left. destruct H as [Hn Hk]. unfold on_output in *. rewrite Hk.
    repeat split; assumption.
  - right. destruct H as (k & Hlt & H). split; [reflexivity|].
    rewrite count_lines_app.
    change (count_lines is_progress [ErrorLine e]) with 0%nat. rewrite Nat.add_0_r.
    destruct H as [[Hn Hk] | [Hn Hk]]; unfold on_output in *; rewrite Hk;
      (split; [exact Hlt|]).
    + left. exact Hn.
    + right. exact Hn.
Qed.

End Sync.

(** ** Runs on a framework that does not fail *)

Section Success.
Context `{FW : Framework}.

Hypothesis forward_defined :
  forall p training grad data, exists output,
    forward p training grad data = Ok (Some output).
Hypothesis criterion_defined :
  forall output target, exists loss, criterion output target = Ok (Some loss).
Hypothesis backward_returns :
  forall p g loss, exists g', backward p g loss = Ok g'.
Hypothesis step_returns :
  forall o p g, exists r, adam_step o p g = Ok r.

Lemma train_batch_succeeds b t st :
  exists t' st', train_batch b t st = (Ok t', st') /\
    total t' = (total t + size0 (snd b))%nat /\
    history st' = history st /\ stdout st' = stdout st.
Proof.
  destruct b as [data target].
  unfold train_batch, bind, optimizer_zero_grad, call_model, lift. simpl.
  destruct (forward_defined (m_params (model st)) (m_training (model st))
              (grad_enabled st) data) as [output ->].
  destruct (criterion_defined output target) as [loss ->].
  unfold loss_backward. simpl.
  destruct (backward_returns (m_params (model st)) (zero_grad (m_grads (model st))) loss)
    as [g ->].
  unfold optimizer_step. simpl.
  destruct (step_returns (optimizer st) (m_params (model st)) g) as [[o p] ->].
  eexists _, _. split; [reflexivity|]. repeat split.
Qed.

Lemma eval_batch_succeeds b t st :
  exists t', eval_batch b t st = (Ok t', st) /\
    total t' = (total t + size0 (snd b))%nat.
Proof.
  destruct b as [data target].
  unfold eval_batch, bind, call_model, lift. simpl.
  destruct (forward_defined (m_params (model st)) (m_training (model st))
              (grad_enabled st) data) as [output ->].
  destruct (criterion_defined output target) as [loss ->].
  eexists. split; reflexivity.
Qed.

Lemma train_batches_succeed bs t st :
  exists t' st', for_each bs train_batch t st = (Ok t', st') /\
    total t' = (total t + examples bs)%nat /\
    history st' = history st /\ stdout st' = stdout st.
Proof.
  revert t st. induction bs as [|b bs IH]; intros t st.
  - exists t, st. unfold examples. simpl. repeat split. lia.
  - destruct (train_batch_succeeds b t st) as (t1 & s1 & Hb & Ht1 & Hh1 & Ho1).
    destruct (IH t1 s1) as (t' & st' & Hrest & Ht & Hh & Ho).
    exists t', st'. rewrite for_each_cons. unfold bind. rewrite Hb.
    split; [exact Hrest|]. unfold examples in *. simpl.
    repeat split; [lia | congruence | congruence].
Qed.

Lemma eval_batches_succeed bs t st :
  exists t', for_each bs eval_batch t st = (Ok t', st) /\
    total t' = (total t + examples bs)%nat.
Proof.
  revert t. induction bs as [|b bs IH]; intros t.
  - exists t. unfold examples. simpl. split; [reflexivity | lia].
  - destruct (eval_batch_succeeds b t st) as (t1 & Hb & Ht1).
    destruct (IH t1) as (t' & Hrest & Ht).
    exists t'. rewrite for_each_cons. unfold bind. rewrite Hb.
    split; [exact Hrest|]. unfold examples in *. simpl. lia.
Qed.

Lemma derive_loss_defined loader t :
  dataset_len loader <> 0%nat -> exists v, derive_loss loader t = Ok v.
Proof.
  intros Hn. unfold derive_loss, py_truediv.
  destruct (Qeq_bool _ _) eqn:Hz; [|eauto].
  apply Qeq_bool_iff in Hz. simpl in Hz. exfalso.
  pose proof (inject_nat_pos _ Hn) as Hpos. rewrite Hz in Hpos.
  exact (Qlt_irrefl _ Hpos).
Qed.

Lemma derive_acc_defined t :
  total t <> 0%nat -> exists v, derive_acc t = Ok v.
Proof.
  intros Hn. unfold derive_acc, py_truediv.
  destruct (Qeq_bool _ _) eqn:Hz; [|eauto].
  apply Qeq_bool_iff in Hz. simpl in Hz. exfalso.
  pose proof (inject_nat_pos _ Hn) as Hpos. rewrite Hz in Hpos.
  exact (Qlt_irrefl _ Hpos).
Qed.

Lemma lengths_present (h : gmap string (list Q)) (n : gmap string nat) key k :
  lengths h = n -> n !! key = Some k -> exists l, h !! key = Some l.
Proof.
  intros Hn Hk. rewrite <- Hn in Hk. apply lengths_lookup in Hk as (l & Hl & _). eauto.
Qed.

Lemma train_phase_succeeds tl k st :
  dataset_len tl <> 0%nat -> examples (batches tl) <> 0%nat ->
  completed k st ->
  exists m st', train_phase tl st = (Ok m, st') /\ stdout st' = stdout st.
Proof.
  intros Hlen Hex [Hn _].
  unfold train_phase, bind, model_train, lift, ret.
  destruct (train_batches_succeed (batches tl) zero_totals
              (set_model (mkModel (m_params (model st)) (m_grads (model st)) true) st))
    as (t & s1 & -> & Ht & Hh & Ho).
  destruct (derive_loss_defined tl t Hlen) as [v1 ->].
  destruct (derive_acc_defined t) as [v2 ->]; [simpl in Ht; lia|].
  simpl in Hh, Ho. unfold history_append. rewrite Hh.
  destruct (lengths_present _ _ "train_loss" k Hn eq_refl) as [l1 ->]. simpl.
  rewrite lookup_insert_ne by discriminate.
  destruct (lengths_present _ _ "train_acc" k Hn eq_refl) as [l2 ->]. simpl.
  eexists _, _. split; [reflexivity | exact Ho].
Qed.

Lemma eval_phase_succeeds te k st :
  dataset_len te <> 0%nat -> examples (batches te) <> 0%nat ->
  half_completed k st ->
  exists m st', eval_phase te st = (Ok m, st') /\ stdout st' = stdout st.
Proof.
  intros Hlen Hex [Hn _].
  unfold eval_phase, eval_pass, bind, model_eval, no_grad, lift, ret.
  destruct (eval_batches_succeed (batches te) zero_totals
              (set_grad_enabled false
                 (set_model (mkModel (m_params (model st)) (m_grads (model st)) false) st)))
    as (t & -> & Ht).
  destruct (derive_loss_defined te t Hlen) as [v1 ->].
  destruct (derive_acc_defined t) as [v2 ->]; [simpl in Ht; lia|].
  simpl. unfold history_append. simpl.
  destruct (lengths_present _ _ "test_loss" k Hn eq_refl) as [l1 ->]. simpl.
  rewrite lookup_insert_ne by discriminate.
  destruct (lengths_present _ _ "test_acc" k Hn eq_refl) as [l2 ->]. simpl.
  eexists _, _. split; reflexivity.
Qed.

Lemma epoch_body_succeeds tl te epochs epoch k st :
  dataset_len tl <> 0%nat -> examples (batches tl) <> 0%nat ->
  dataset_len te <> 0%nat -> examples (batches te) <> 0%nat ->
  completed k st ->
  exists st' l, epoch_body tl te epochs epoch tt st = (Ok tt, st') /\
    completed (S k) st' /\ is_progress l = true /\ stdout st' = stdout st ++ [l].
Proof.
  intros H1 H2 H3 H4 Hst.
  pose proof (epoch_body_shape tl te epochs epoch k st Hst) as Hshape.
  pose proof (train_phase_shape tl k st Hst) as Hhalf.
  destruct (train_phase_succeeds tl k st H1 H2 Hst) as (tr & s1 & Htr & Ho1).
  rewrite Htr in Hhalf.
  destruct (eval_phase_succeeds te k s1 H3 H4 Hhalf) as (ev & s2 & Hev & Ho2).
  unfold epoch_body, bind in *. rewrite Htr, Hev in *. unfold print in *.
  eexists _, (Progress (epoch + 1) epochs (fst tr) (snd tr) (fst ev) (snd ev)).
  split; [reflexivity|]. split; [exact Hshape|].
  split; [reflexivity|]. simpl. rewrite Ho2, Ho1. reflexivity.
Qed.

Lemma epochs_succeed tl te epochs xs k st :
  dataset_len tl <> 0%nat -> examples (batches tl) <> 0%nat ->
  dataset_len te <> 0%nat -> examples (batches te) <> 0%nat ->
  completed k st ->
  exists st' out, for_each xs (epoch_body tl te epochs) tt st = (Ok tt, st') /\
    stdout st' = stdout st ++ out /\ length out = length xs /\
    Forall (fun l => is_progress l = true) out.
Proof.
  intros H1 H2 H3 H4. revert k st. induction xs as [|x xs IH]; intros k st Hst.
  - exists st, []. rewrite app_nil_r. repeat split. constructor.
  - destruct (epoch_body_succeeds tl te epochs x k st H1 H2 H3 H4 Hst)
      as (s1 & l & Hbody & Hs1 & Hl & Ho1).
    destruct (IH (S k) s1 Hs1) as (st' & out & Hrest & Ho & Hlen & Hall).
    exists st', (l :: out). rewrite for_each_cons. unfold bind. rewrite Hbody.
    split; [exact Hrest|]. split; [|split].
    + rewrite Ho, Ho1, <- app_assoc. reflexivity.
    + simpl. rewrite Hlen. reflexivity.
    + constructor; assumption.
Qed.

(** X4. When no call into the framework raises or returns None, both
    datasets are non-empty and both loaders yield at least one example,
    [train] returns a history for every number of epochs, and its output
    is one progress line per epoch and nothing else: no batch is skipped,
    no division is by zero and no key of the history is missing. *)
Theorem train_succeeds net tl te epochs :
  dataset_len tl <> 0%nat -> examples (batches tl) <> 0%nat ->
  dataset_len te <> 0%nat -> examples (batches te) <> 0%nat ->
  exists h, fst (train net tl te epochs) = Some h /\
    length (stdout (snd (train net tl te epochs))) = Z.to_nat epochs /\
    Forall (fun l => is_progress l = true) (stdout (snd (train net tl te epochs))).
Proof.
  intros H1 H2 H3 H4.
  destruct (epochs_succeed tl te epochs (range epochs) 0 (initial_state net)
              H1 H2 H3 H4 (initial_state_completed net))
    as (st & out & Hloop & Ho & Hlen & Hall).
  unfold train, epochs_loop. rewrite Hloop. simpl in *.
  exists (history st). rewrite Ho, Hlen, length_range. auto.
Qed.

End Success.

(** X4 on the framework that does not fail. *)
Lemma train_succeeds_witness :
  exists h, fst (train Plain.plain_net Plain.plain_train Plain.plain_test 3) = Some h /\
    length (stdout (snd (train Plain.plain_net Plain.plain_train Plain.plain_test 3)))
      = 3%nat.
Proof.
  assert (H : exists h,
    fst (train Plain.plain_net Plain.plain_train Plain.plain_test 3) = Some h /\
    length (stdout (snd (train Plain.plain_net Plain.plain_train Plain.plain_test 3)))
      = Z.to_nat 3 /\
    Forall (fun l => is_progress l = true)
      (stdout (snd (train Plain.plain_net Plain.plain_train Plain.plain_test 3)))).
  { apply (@train_succeeds Plain.plain).
    - intros p training grad data. eexists. reflexivity.
    - intros output target. eexists. reflexivity.
    - intros p g loss. eexists. reflexivity.
    - intros o p g. eexists. reflexivity.
    - simpl. lia.
    - vm_compute. lia.
    - simpl. lia.
    - vm_compute. lia. }
  destruct H as (h & Hh & Hlen & _). exists h. split; [exact Hh | exact Hlen].
Defined.

(** ** Models and criteria that never return None *)

Section NeverNone.
Context `{FW : Framework}.

Hypothesis forward_not_none :
  forall p training grad data, forward p training grad data <> Ok None.
Hypothesis criterion_not_none :
  forall output target, criterion output target <> Ok None.

Lemma keeps_stdout_append (P : list Line -> Prop) key v :
  keeps (on_output (fun _ out => P out)) (history_append key v).
Proof.
  intros st H. unfold history_append.
  destruct (history st !! key); exact H.
Qed.

Lemma keeps_unwarned_train_batch b t :
  keeps (on_output (fun _ out => count_lines is_warning out = 0%nat)) (train_batch b t).
Proof.
  destruct b as [data target]. intros st H.
  unfold train_batch, bind, optimizer_zero_grad, call_model, lift. simpl.
  pose proof (forward_not_none (m_params (model st)) (m_training (model st))
                (grad_enabled st) data) as Hf.
  destruct (forward _ _ _ data) as [[output|]|e]; simpl; [|contradiction|exact H].
  pose proof (criterion_not_none output target) as Hc.
  destruct (criterion output target) as [[loss|]|e]; simpl; [|contradiction|exact H].
  unfold loss_backward. simpl.
  destruct (backward _ _ loss) as [g|e]; simpl; [|exact H].
  unfold optimizer_step. simpl.
  destruct (adam_step _ _ _) as [[o p]|e]; exact H.
Qed.

Lemma keeps_unwarned_eval_batch b t :
  keeps (on_output (fun _ out => count_lines is_warning out = 0%nat)) (eval_batch b t).
Proof.
  destruct b as [data target]. intros st H.
  unfold eval_batch, bind, call_model, lift. simpl.
  pose proof (forward_not_none (m_params (model st)) (m_training (model st))
                (grad_enabled st) data) as Hf.
  destruct (forward _ _ _ data) as [[output|]|e]; simpl; [|contradiction|exact H].
  pose proof (criterion_not_none output target) as Hc.
  destruct (criterion output target) as [[loss|]|e]; simpl; [exact H|contradiction|exact H].
Qed.

Lemma keeps_unwarned_epochs_loop tl te epochs :
  keeps (on_output (fun _ out => count_lines is_warning out = 0%nat))
        (epochs_loop tl te epochs).
Proof.
  unfold epochs_loop. apply keeps_for_each. intros epoch []. unfold epoch_body.
  apply keeps_bind.
  { unfold train_phase.
    apply keeps_bind; [apply keeps_model_train | intros []].
    apply keeps_bind;
      [apply keeps_for_each; intros; apply keeps_unwarned_train_batch | intros t].
    apply keeps_bind; [apply keeps_lift | intros train_loss].
    apply keeps_bind; [apply keeps_lift | intros train_acc].
    apply keeps_bind; [apply keeps_stdout_append | intros []].
    apply keeps_bind; [apply keeps_stdout_append | intros []].
    apply keeps_ret. }
  intros tr. apply keeps_bind.
  { unfold eval_phase, eval_pass.
    apply keeps_bind.
    { apply keeps_bind; [apply keeps_model_eval | intros []].
      apply keeps_bind.
      { apply keeps_no_grad, keeps_for_each. intros. apply keeps_unwarned_eval_batch. }
      intros t. apply keeps_bind; [apply keeps_lift | intros test_loss].
      apply keeps_bind; [apply keeps_lift | intros test_acc].
      apply keeps_ret. }
    intros m. apply keeps_bind; [apply keeps_stdout_append | intros []].
    apply keeps_bind; [apply keeps_stdout_append | intros []].
    apply keeps_ret. }
  intros ev st H. unfold on_output in *. simpl.
  rewrite count_lines_app, H. reflexivity.
Qed.

(** X5. With a model and a criterion that never return None, as
    [OneConv.forward] and [CrossEntropyLoss] never do, no run of [train]
    prints a warning: its output is progress lines, and the error line when
    it fails. *)
Theorem no_warning_without_none net tl te epochs :
  count_lines is_warning (stdout (snd (train net tl te epochs))) = 0%nat /\
  Forall (fun l => is_progress l = true \/ is_error l = true)
         (stdout (snd (train net tl te epochs))).
Proof.
  assert (Hw : count_lines is_warning (stdout (snd (train net tl te epochs))) = 0%nat).
  { pose proof (keeps_unwarned_epochs_loop tl te epochs (initial_state net) eq_refl) as H.
    unfold train.
    destruct (epochs_loop tl te epochs (initial_state net)) as [[[]|e] st]; simpl.
    - exact H.
    - unfold on_output in H. rewrite count_lines_app, H. reflexivity. }
  split; [exact Hw|].
  revert Hw. generalize (stdout (snd (train net tl te epochs))). intros out.
  induction out as [|l out IH]; intros Hw; [constructor|].
  unfold count_lines in *. simpl in Hw.
  destruct l as [msg|i n a b c d|e]; simpl in Hw; try discriminate;
    (constructor; [simpl; auto | apply IH; exact Hw]).
Qed.

End NeverNone.

Lemma no_warning_without_none_witness :
  count_lines is_warning
    (stdout (snd (train Plain.plain_net Plain.plain_train Plain.plain_test 2))) = 0%nat.
Proof.
  apply (@no_warning_without_none Plain.plain).
  - intros p training grad data. discriminate.
  - intros output target. discriminate.
Defined.

(** ** The evaluation data and the trained model *)

Section NoLeak.
Context `{FW : Framework}.

(** A training batch reads and writes the model, the optimizer and the
    output only. *)
Lemma train_batch_alike b t st1 st2 :
  model st1 = model st2 -> optimizer st1 = optimizer st2 ->
  grad_enabled st1 = grad_enabled st2 ->
  fst (train_batch b t st1) = fst (train_batch b t st2) /\
  model (snd (train_batch b t st1)) = model (snd (train_batch b t st2)) /\
  optimizer (snd (train_batch b t st1)) = optimizer (snd (train_batch b t st2)) /\
  grad_enabled (snd (train_batch b t st1)) = grad_enabled (snd (train_batch b t st2)) /\
  history (snd (train_batch b t st1)) = history st1 /\
  history (snd (train_batch b t st2)) = history st2.
Proof.
  destruct st1 as [m1 g1 o1 h1 out1], st2 as [m2 g2 o2 h2 out2]. simpl.
  intros <- <- <-. destruct b as [data target].
  unfold train_batch, bind, optimizer_zero_grad, call_model, lift. simpl.
  destruct (forward _ _ _ data) as [[output|]|e]; simpl; [|repeat split..].
  destruct (criterion output target) as [[loss|]|e]; simpl; [|repeat split..].
  unfold loss_backward. simpl.
  destruct (backward _ _ loss) as [g|e]; simpl; [|repeat split].
  unfold optimizer_step. simpl.
  destruct (adam_step _ _ _) as [[o p]|e]; simpl; repeat split.
Qed.

Lemma train_batches_alike bs t st1 st2 :
  model st1 = model st2 -> optimizer st1 = optimizer st2 ->
  grad_enabled st1 = grad_enabled st2 ->
  fst (for_each bs train_batch t st1) = fst (for_each bs train_batch t st2) /\
  model (snd (for_each bs train_batch t st1)) =
    model (snd (for_each bs train_batch t st2)) /\
  optimizer (snd (for_each bs train_batch t st1)) =
    optimizer (snd (for_each bs train_batch t st2)) /\
  grad_enabled (snd (for_each bs train_batch t st1)) =
    grad_enabled (snd (for_each bs train_batch t st2)) /\
  history (snd (for_each bs train_batch t st1)) = history st1 /\
  history (snd (for_each bs train_batch t st2)) = history st2.
Proof.
  revert t st1 st2. induction bs as [|b bs IH]; intros t st1 st2 Hm Ho Hg.
  - simpl. repeat split; assumption.
  - rewrite !for_each_cons. unfold bind.
    destruct (train_batch_alike b t st1 st2 Hm Ho Hg) as (Hr & Hm' & Ho' & Hg' & Hh1 & Hh2).
    destruct (train_batch b t st1) as [[t1|e1] s1],
             (train_batch b t st2) as [[t2|e2] s2]; simpl in *; try discriminate.
    + injection Hr as ->.
      destruct (IH t2 s1 s2 Hm' Ho' Hg') as (Kr & Km & Ko & Kg & Kh1 & Kh2).
      repeat split; congruence.
    + repeat split; assumption.
Qed.

(** Training phases started from states that train alike end alike. *)
Lemma train_phase_alike tl st1 st2 :
  same_training st1 st2 ->
  fst (train_phase tl st1) = fst (train_phase tl st2) /\
  same_training (snd (train_phase tl st1)) (snd (train_phase tl st2)).
Proof.
  intros (Hm & Ho & Hg & Hl & Ha).
  unfold train_phase, bind, model_train, lift, ret.
  set (s1 := set_model _ st1). set (s2 := set_model _ st2).
  destruct (train_batches_alike (batches tl) zero_totals s1 s2)
    as (Hr & Hm' & Ho' & Hg' & Hh1 & Hh2).
  { unfold s1, s2. simpl. rewrite Hm. reflexivity. }
  { exact Ho. }
  { exact Hg. }
  destruct (for_each (batches tl) train_batch zero_totals s1) as [[t1|e1] s1'],
           (for_each (batches tl) train_batch zero_totals s2) as [[t2|e2] s2'];
    simpl in *; try discriminate.
  - injection Hr as ->.
    assert (Hsame : same_training s1' s2')
      by (unfold same_training; rewrite Hh1, Hh2; auto).
    destruct (derive_loss tl t2) as [v1|e]; simpl; [|auto].
    destruct (derive_acc t2) as [v2|e]; simpl; [|auto].
    unfold history_append. rewrite Hh1, Hh2, Hl.
    destruct (history st2 !! "train_loss") as [l1|]; simpl;
      [|split; [reflexivity | exact Hsame]].
    rewrite !lookup_insert_ne by discriminate. rewrite Ha.
    destruct (history st2 !! "train_acc") as [l2|] eqn:Ha2; simpl.
    + split; [reflexivity|]. unfold same_training. simpl.
      repeat split; try assumption;
        repeat (rewrite lookup_insert_eq || rewrite lookup_insert_ne by discriminate);
        reflexivity.
    + split; [reflexivity|]. unfold same_training. simpl.
      repeat split; try assumption;
        repeat (rewrite lookup_insert_eq || rewrite lookup_insert_ne by discriminate);
        congruence.
  - injection Hr as ->. split; [reflexivity|].
    unfold same_training. rewrite Hh1, Hh2. auto.
Qed.

(** An evaluation phase that returns has left the training side alone. *)
Lemma eval_phase_training_frame te st m st' :
  eval_phase te st = (Ok m, st') ->
  model st' = mkModel (m_params (model st)) (m_grads (model st)) false /\
  optimizer st' = optimizer st /\ grad_enabled st' = grad_enabled st /\
  history st' !! "train_loss" = history st !! "train_loss" /\
  history st' !! "train_acc" = history st !! "train_acc".
Proof.
  intros H.
  apply eval_phase_ok in H as (t & s1 & l1 & l2 & Hloop & _ & _ & _ & _ & ->).
  pose proof (eval_batches_untouched (batches te) zero_totals (evaluation_state st))
    as (Hm & _ & Ho & _).
  rewrite Hloop in Hm, Ho. simpl in *.
  rewrite !lookup_insert_ne by discriminate. rewrite Hm, Ho. auto.
Qed.

Lemma epochs_alike tl te1 te2 epochs xs st1 st2 s1 s2 :
  same_training st1 st2 ->
  for_each xs (epoch_body tl te1 epochs) tt st1 = (Ok tt, s1) ->
  for_each xs (epoch_body tl te2 epochs) tt st2 = (Ok tt, s2) ->
  same_training s1 s2.
Proof.
  revert st1 st2. induction xs as [|x xs IH]; intros st1 st2 Hsame H1 H2.
  - injection H1 as <-. injection H2 as <-. exact Hsame.
  - rewrite for_each_cons in H1, H2.
    apply bind_ok in H1 as ([] & a1 & Hb1 & H1).
    apply bind_ok in H2 as ([] & a2 & Hb2 & H2).
    apply (IH a1 a2); [|exact H1|exact H2].
    unfold epoch_body in Hb1, Hb2.
    apply bind_ok in Hb1 as (tr1 & b1 & Ht1 & Hb1).
    apply bind_ok in Hb2 as (tr2 & b2 & Ht2 & Hb2).
    apply bind_ok in Hb1 as (ev1 & c1 & He1 & Hb1).
    apply bind_ok in Hb2 as (ev2 & c2 & He2 & Hb2).
    injection Hb1 as <-. injection Hb2 as <-.
    destruct (train_phase_alike tl st1 st2 Hsame) as (_ & Hm & Ho & Hg & Hl & Ha).
    rewrite Ht1, Ht2 in *. simpl in *.
    apply eval_phase_training_frame in He1 as (Km1 & Ko1 & Kg1 & Kl1 & Ka1).
    apply eval_phase_training_frame in He2 as (Km2 & Ko2 & Kg2 & Kl2 & Ka2).
    unfold same_training. simpl.
    rewrite Km1, Km2, Ko1, Ko2, Kg1, Kg2, Kl1, Kl2, Ka1, Ka2, Hm.
    auto.
Qed.

(** X6. The evaluation data has no part in the training: two runs that
    differ in the test loader only and both return a history end with the
    same model and the same optimizer state, and their histories hold the
    same training losses and accuracies. *)
Theorem training_independent_of_test_data net tl te1 te2 epochs h1 h2 :
  fst (train net tl te1 epochs) = Some h1 ->
  fst (train net tl te2 epochs) = Some h2 ->
  model (snd (train net tl te1 epochs)) = model (snd (train net tl te2 epochs)) /\
  optimizer (snd (train net tl te1 epochs)) =
    optimizer (snd (train net tl te2 epochs)) /\
  h1 !! "train_loss" = h2 !! "train_loss" /\
  h1 !! "train_acc" = h2 !! "train_acc".
Proof.
  unfold train, epochs_loop.
  destruct (for_each (range epochs) (epoch_body tl te1 epochs) tt (initial_state net))
    as [[[]|e1] s1] eqn:H1; simpl; [|discriminate].
  destruct (for_each (range epochs) (epoch_body tl te2 epochs) tt (initial_state net))
    as [[[]|e2] s2] eqn:H2; simpl; [|discriminate].
  intros [= <-] [= <-].
  assert (Hinit : same_training (initial_state net) (initial_state net))
    by (repeat split).
  destruct (epochs_alike tl te1 te2 epochs _ _ _ _ _ Hinit H1 H2)
    as (Hm & Ho & _ & Hl & Ha).
  auto.
Qed.

End NoLeak.

(** X6 on two runs over different test loaders. *)
Lemma training_independent_of_test_data_witness :
  model (snd (train Toy.net0 Toy.good_loader Toy.good_loader 2)) =
    model (snd (train Toy.net0 Toy.good_loader Toy.mixed_loader 2)) /\
  history (snd (train Toy.net0 Toy.good_loader Toy.good_loader 2)) !! "train_loss" =
    history (snd (train Toy.net0 Toy.good_loader Toy.mixed_loader 2)) !! "train_loss".
Proof.
  destruct (training_independent_of_test_data
              Toy.net0 Toy.good_loader Toy.good_loader Toy.mixed_loader 2
              (history (snd (train Toy.net0 Toy.good_loader Toy.good_loader 2)))
              (history (snd (train Toy.net0 Toy.good_loader Toy.mixed_loader 2))))
    as (Hm & _ & Hl & _).
  - apply train_returns_its_history. vm_compute. exact I.
  - apply train_returns_its_history. vm_compute. exact I.
  - split; [exact Hm | exact Hl].
Defined.

(** ** The evaluation metrics in closed form *)

Section ClosedForm.
Context `{FW : Framework}.

Lemma kept_agree st1 st2 b : agree st1 st2 -> kept st1 b = kept st2 b.
Proof. intros (Hp & Hm & Hg). unfold kept. rewrite Hp, Hm, Hg. reflexivity. Qed.

Lemma kept_sums_agree st1 st2 bs :
  agree st1 st2 ->
  kept_loss st1 bs = kept_loss st2 bs /\
  kept_correct st1 bs = kept_correct st2 bs /\
  kept_total st1 bs = kept_total st2 bs /\
  skipped_count st1 bs = skipped_count st2 bs.
Proof.
  intros Hag. unfold kept_loss, kept_correct, kept_total, skipped_count.
  induction bs as [|b bs (IH1 & IH2 & IH3 & IH4)]; [repeat split|].
  simpl. rewrite (kept_agree st1 st2 b Hag), (anomaly_agree st1 st2 b Hag).
  rewrite IH1, IH2, IH3.
  repeat split. destruct (anomaly st2 b); simpl; congruence.
Qed.

(** A batch of the evaluation loop that returns was either skipped, with
    its warning, or added to the totals, silently. *)
Lemma eval_batch_cases b t st t' st' :
  eval_batch b t st = (Ok t', st') ->
  (exists a, anomaly st b = Some a /\ kept st b = None /\ t' = t /\
             st' = set_stdout (stdout st ++ [eval_warning a]) st) \/
  (exists output loss, kept st b = Some (output, loss) /\ anomaly st b = None /\
             t' = accumulate loss output (snd b) t /\ st' = st).
Proof.
  destruct b as [data target].
  unfold eval_batch, anomaly, kept, bind, call_model, lift, print, ret. simpl.
  destruct (forward _ _ _ data) as [[output|]|e]; simpl; [| |discriminate].
  - destruct (criterion output target) as [[loss|]|e]; simpl; [| |discriminate].
    + intros [= <- <-]. right. exists output, loss. auto.
    + intros [= <- <-]. left. exists NoLoss. auto.
  - intros [= <- <-]. left. exists NoOutput. auto.
Qed.

Lemma py_val_accumulate loss output target t :
  py_val (loss_sum (accumulate loss output target t)) =
  (py_val (loss_sum t) + item loss)%Q.
Proof. simpl. destruct (loss_sum t); reflexivity. Qed.

Lemma count_warning_eval_warning out a :
  count_lines is_warning (out ++ [eval_warning a]) = S (count_lines is_warning out).
Proof.
  rewrite count_lines_app. destruct a; unfold count_lines; simpl; lia.
Qed.

(** The totals of an evaluation loop that returns: what it started from,
    plus the sums over the batches that were not skipped. *)
Lemma eval_batches_sums bs t st t' st' :
  for_each bs eval_batch t st = (Ok t', st') ->
  py_val (loss_sum t') == py_val (loss_sum t) + kept_loss st bs /\
  correct t' = (correct t + kept_correct st bs)%nat /\
  total t' = (total t + kept_total st bs)%nat /\
  count_lines is_warning (stdout st') =
    (count_lines is_warning (stdout st) + skipped_count st bs)%nat.
Proof.
  revert t st. induction bs as [|b bs IH]; intros t st H.
  - injection H as <- <-. unfold kept_loss, kept_correct, kept_total, skipped_count.
    simpl. repeat split; try lia. ring.
  - rewrite for_each_cons in H. apply bind_ok in H as (t1 & s1 & Hb & H).
    apply IH in H as (Hl & Hc & Ht & Hw).
    apply eval_batch_cases in Hb
      as [(a & Ha & Hk & -> & ->) | (output & loss & Hk & Ha & -> & ->)].
    + destruct (kept_sums_agree st (set_stdout (stdout st ++ [eval_warning a]) st) bs)
        as (E1 & E2 & E3 & E4); [repeat split|].
      rewrite <- E1 in Hl. rewrite <- E2 in Hc. rewrite <- E3 in Ht. rewrite <- E4 in Hw.
      simpl in Hw. rewrite count_warning_eval_warning in Hw.
      unfold kept_loss, kept_correct, kept_total, skipped_count in *. simpl.
      rewrite Hk, Ha. simpl. repeat split; try lia. exact Hl.
    + rewrite py_val_accumulate in Hl. simpl in Hc, Ht.
      unfold kept_loss, kept_correct, kept_total, skipped_count in *. simpl.
      rewrite Hk, Ha. simpl. repeat split; try lia.
      rewrite Hl. ring.
Qed.

Lemma returns_value {A} (m : M A) st :
  Is_true (match fst (m st) with Ok _ => true | Raise _ => false end) ->
  exists a, m st = (Ok a, snd (m st)).
Proof. destruct (m st) as [[a|e] st']; simpl; [eauto | contradiction]. Qed.

(** X7. The metrics of an evaluation pass that returns, as sums over the
    batches of the loader, with the model as it is in evaluation mode under
    [no_grad]: the loss is the sum of the losses of the batches that were
    not skipped, divided by [len(test_loader.dataset)]; the accuracy is 100
    times their correct predictions over their examples, of which there is
    at least one; and one warning was printed per skipped batch.  A skipped
    batch thus leaves the accuracy's denominator but not the loss's. *)
Theorem evaluation_metrics_closed_form te st loss acc st' :
  eval_pass te st = (Ok (loss, acc), st') ->
  kept_total (evaluation_state st) (batches te) <> 0%nat /\
  dataset_len te <> 0%nat /\
  loss == kept_loss (evaluation_state st) (batches te) /
          inject_Z (Z.of_nat (dataset_len te)) /\
  acc == 100 * inject_Z (Z.of_nat (kept_correct (evaluation_state st) (batches te))) /
         inject_Z (Z.of_nat (kept_total (evaluation_state st) (batches te))) /\
  count_lines is_warning (stdout st') =
    (count_lines is_warning (stdout st) +
     skipped_count (evaluation_state st) (batches te))%nat.
Proof.
  unfold eval_pass. intros H.
  apply bind_ok in H as ([] & s0 & [= <-] & H).
  apply bind_ok in H as (t & s2 & Hloop & H).
  apply bind_ok in H as (v1 & s3 & Hl & H). apply lift_ok in Hl as [Hl ->].
  apply bind_ok in H as (v2 & s4 & Ha & H). apply lift_ok in Ha as [Ha ->].
  injection H as <- <- <-.
  unfold no_grad in Hloop.
  change (set_grad_enabled false (set_model _ st)) with (evaluation_state st) in Hloop.
  destruct (for_each (batches te) eval_batch zero_totals (evaluation_state st))
    as [[t0|e] s1] eqn:Hrun; [|discriminate].
  injection Hloop as -> <-.
  apply eval_batches_sums in Hrun as (Hs & Hc & Ht & Hw).
  apply derive_loss_ok in Hl as [Hn ->].
  apply derive_acc_ok in Ha as (Hn' & -> & _).
  simpl in Hc, Ht, Hw, Hs.
  rewrite Hc, Ht in *. split; [exact Hn'|]. split; [exact Hn|].
  split; [|split; [reflexivity | exact Hw]].
  rewrite Hs. unfold Qdiv. ring.
Qed.

End ClosedForm.

(** X7 on a loader with two skipped batches among four. *)
Lemma evaluation_metrics_closed_form_witness :
  exists loss acc,
    fst (eval_pass Toy.mixed_loader (initial_state Toy.net0)) = Ok (loss, acc) /\
    loss == (1 # 16) /\ acc == 25 /\
    count_lines is_warning
      (stdout (snd (eval_pass Toy.mixed_loader (initial_state Toy.net0)))) = 2%nat.
Proof.
  destruct (returns_value (eval_pass Toy.mixed_loader) (initial_state Toy.net0))
    as [[loss acc] Hrun]; [vm_compute; exact I|].
  destruct (evaluation_metrics_closed_form _ _ _ _ _ Hrun) as (_ & _ & Hl & Ha & Hw).
  exists loss, acc. split; [exact (f_equal fst Hrun)|].
  split; [rewrite Hl; vm_compute; reflexivity|].
  split; [rewrite Ha; vm_compute; reflexivity|].
  rewrite Hw. vm_compute. reflexivity.
Defined.

(** ** The progress lines and the history *)

Section Log.
Context `{FW : Framework}.

Lemma rows_snoc {B} (f : nat -> Q * Q * Q * Q -> B) (a b c d : list Q) x y z w k :
  length a = k -> length b = k -> length c = k -> length d = k ->
  imap f (zip (zip (zip (a ++ [x]) (b ++ [y])) (c ++ [z])) (d ++ [w])) =
  imap f (zip (zip (zip a b) c) d) ++ [f k (x, y, z, w)].
Proof.
  intros Ha Hb Hc Hd.
  rewrite (zip_with_app pair a [x] b [y]) by congruence.
  rewrite (zip_with_app pair (zip a b) _ c [z])
    by (rewrite length_zip_with; lia).
  rewrite (zip_with_app pair (zip (zip a b) c) _ d [w])
    by (rewrite !length_zip_with; lia).
  rewrite imap_app. simpl. rewrite !length_zip_with, Nat.add_0_r.
  repeat f_equal. lia.
Qed.

Lemma progress_lines_app out1 out2 :
  progress_lines (out1 ++ out2) = progress_lines out1 ++ progress_lines out2.
Proof. apply List.filter_app. Qed.

Lemma keeps_warning_lines L msg :
  keeps (on_output (fun _ out => progress_lines out = L)) (print (Warning msg)).
Proof.
  intros st H. unfold on_output in *. simpl.
  rewrite progress_lines_app, H. simpl. apply app_nil_r.
Qed.

(** The batch loops print no progress line. *)
Lemma train_batches_progress_lines bs t st :
  progress_lines (stdout (snd (for_each bs train_batch t st))) =
  progress_lines (stdout st).
Proof.
  pose proof (keeps_train_batches (fun _ out => progress_lines out = progress_lines (stdout st))
                (keeps_warning_lines _) bs t st eq_refl) as H.
  destruct (for_each bs train_batch t st) as [[t'|e] st']; exact H.
Qed.

Lemma eval_batches_progress_lines bs t st :
  progress_lines (stdout (snd (for_each bs eval_batch t st))) =
  progress_lines (stdout st).
Proof.
  pose proof (keeps_for_each
                (on_output (fun _ out => progress_lines out = progress_lines (stdout st)))
                eval_batch bs t
                (fun b t => keeps_eval_batch _ (keeps_warning_lines _) b t) st eq_refl) as H.
  destruct (for_each bs eval_batch t st) as [[t'|e] st']; exact H.
Qed.

Lemma completed_sequence k st key :
  completed k st -> epoch_lengths k k !! key = Some k ->
  exists l, history st !! key = Some l /\ length l = k.
Proof.
  intros [Hn _] Hk. apply lengths_lookup. rewrite Hn. exact Hk.
Qed.

(** An epoch that completes prints the line of the four values it
    appends, numbered after the epochs before it. *)
Lemma epoch_body_logged tl te epochs k st st' :
  logged epochs k st ->
  epoch_body tl te epochs (Z.of_nat k) tt st = (Ok tt, st') ->
  logged epochs (S k) st'.
Proof.
  intros [Hc Hp] Hbody.
  pose proof (epoch_body_shape tl te epochs (Z.of_nat k) k st Hc) as Hshape.
  rewrite Hbody in Hshape. split; [exact Hshape|].
  destruct (completed_sequence k st "train_loss" Hc eq_refl) as (a & Ha & Hla).
  destruct (completed_sequence k st "train_acc" Hc eq_refl) as (b & Hb & Hlb).
  destruct (completed_sequence k st "test_loss" Hc eq_refl) as (c & Hcc & Hlc).
  destruct (completed_sequence k st "test_acc" Hc eq_refl) as (d & Hd & Hld).
  unfold epoch_body in Hbody.
  apply bind_ok in Hbody as (tr & sa & Htrain & Hbody).
  apply bind_ok in Hbody as (ev & sb & Heval & Hbody).
  injection Hbody as <-.
  apply train_phase_ok in Htrain
    as (t1 & s1 & l1 & l2 & Hloop1 & _ & _ & Hk1 & Hk2 & ->).
  apply eval_phase_ok in Heval
    as (t2 & s2 & l3 & l4 & Hloop2 & _ & _ & Hk3 & Hk4 & ->).
  simpl in Hk3, Hk4. rewrite !lookup_insert_ne in Hk3, Hk4 by discriminate.
  assert (l1 = a) as -> by congruence. assert (l2 = b) as -> by congruence.
  assert (l3 = c) as -> by congruence. assert (l4 = d) as -> by congruence.
  pose proof (train_batches_progress_lines (batches tl) zero_totals (training_state st))
    as Hout1.
  rewrite Hloop1 in Hout1. simpl in Hout1.
  pose proof (eval_batches_progress_lines (batches te) zero_totals
                (evaluation_state
                   (set_history
                      (<["train_acc":=b ++ [snd tr]]>
                         (<["train_loss":=a ++ [fst tr]]> (history st))) s1)))
    as Hout2.
  rewrite Hloop2 in Hout2. simpl in Hout2.
  simpl. rewrite progress_lines_app, Hout2, Hout1, Hp. simpl.
  unfold progress_of_history. simpl.
  rewrite Ha, Hb, Hcc, Hd.
  repeat (rewrite lookup_insert_eq || rewrite lookup_insert_ne by discriminate).
  rewrite (rows_snoc _ a b c d (fst tr) (snd tr) (fst ev) (snd ev) k Hla Hlb Hlc Hld).
  reflexivity.
Qed.

Lemma epochs_logged tl te epochs n k st st' :
  logged epochs k st ->
  for_each (map Z.of_nat (seq k n)) (epoch_body tl te epochs) tt st = (Ok tt, st') ->
  logged epochs (k + n) st'.
Proof.
  revert k st. induction n as [|n IH]; intros k st Hst H.
  - injection H as <-. rewrite Nat.add_0_r. exact Hst.
  - cbn [map seq] in H. rewrite for_each_cons in H.
    apply bind_ok in H as ([] & s1 & Hbody & H).
    replace (k + S n)%nat with (S k + n)%nat by lia.
    apply (IH (S k) s1); [|exact H].
    eapply epoch_body_logged; eassumption.
Qed.

Lemma initial_state_logged net epochs : logged epochs 0 (initial_state net).
Proof. split; [apply initial_state_completed | reflexivity]. Qed.

(** X8. In the output of a run that returns a history, the progress lines
    are those of the history, in order: there is one per entry, line [i]
    is numbered [i] of [epochs] and shows entry [i] of train_loss,
    train_acc, test_loss and test_acc. *)
Theorem progress_lines_match_history net tl te epochs h :
  fst (train net tl te epochs) = Some h ->
  progress_lines (stdout (snd (train net tl te epochs))) =
  progress_of_history epochs h.
Proof.
  unfold train, epochs_loop, range.
  destruct (for_each (map Z.of_nat (seq 0 (Z.to_nat epochs)))
              (epoch_body tl te epochs) tt (initial_state net))
    as [[[]|e] st] eqn:Hloop; simpl; [|discriminate].
  intros [= <-].
  apply (epochs_logged tl te epochs (Z.to_nat epochs) 0 (initial_state net) st
           (initial_state_logged net epochs) Hloop).
Qed.

End Log.

(** X8 on a run of two epochs. *)
Lemma progress_lines_match_history_witness :
  progress_lines (stdout (snd (train Toy.net0 Toy.mixed_loader Toy.good_loader 2))) =
  [Progress 1 2 (4 # 64) (200 # 8) (4 # 32) (200 # 8);
   Progress 2 2 (4 # 64) (200 # 8) (4 # 32) (200 # 8)].
Proof.
  rewrite (progress_lines_match_history Toy.net0 Toy.mixed_loader Toy.good_loader 2
             (history (snd (train Toy.net0 Toy.mixed_loader Toy.good_loader 2)))).
  - vm_compute. reflexivity.
  - apply train_returns_its_history. vm_compute. exact I.
Defined.

(** * The model of the notebook and the cell that trains it *)

Lemma OneConv_forward_batch n c h w :
  OneConv_forward [n; c; h; w] =
  if negb (c =? 1)%N then inl BadChannels
  else if (h <? 5)%N || (w <? 5)%N then inl KernelTooLarge
  else if (9 * ((h - 5 + 1) * ((w - 5 + 1) * 1)) =? 5184)%N then inr [n; 10%N]
  else inl BadFeatures.
Proof.
  unfold OneConv_forward, conv2d_shape, conv2d_image. cbn [length Nat.eqb andb].
  destruct (negb (c =? 1)%N); [reflexivity|].
  destruct ((h <? 5)%N || (w <? 5)%N); [reflexivity|].
  cbn [then_shape flatten_shape fold_right]. unfold linear_shape. cbn [last].
  destruct (9 * ((h - 5 + 1) * ((w - 5 + 1) * 1)) =? 5184)%N; reflexivity.
Qed.

Lemma OneConv_forward_image c h w :
  OneConv_forward [c; h; w] =
  if negb (c =? 1)%N then inl BadChannels
  else if (h <? 5)%N || (w <? 5)%N then inl KernelTooLarge
  else if ((h - 5 + 1) * ((w - 5 + 1) * 1) =? 5184)%N then inr [9%N; 10%N]
  else inl BadFeatures.
Proof.
  unfold OneConv_forward, conv2d_shape, conv2d_image. cbn [length Nat.eqb andb].
  destruct (negb (c =? 1)%N); [reflexivity|].
  destruct ((h <? 5)%N || (w <? 5)%N); [reflexivity|].
  cbn [then_shape flatten_shape fold_right]. unfold linear_shape. cbn [last].
  destruct ((h - 5 + 1) * ((w - 5 + 1) * 1) =? 5184)%N; reflexivity.
Qed.

(** The guard: a fifth dimension of size 1 in third place is dropped; any
    other five-dimensional input reaches the convolution as it is. *)
Lemma OneConv_forward_five n c d h w :
  OneConv_forward [n; c; d; h; w] =
  if (d =? 1)%N then OneConv_forward [n; c; h; w] else inl BadRank.
Proof.
  unfold OneConv_forward at 1. cbn [length Nat.eqb andb nth].
  unfold squeeze_shape. cbn [nth].
  destruct (d =? 1)%N; reflexivity.
Qed.

Lemma OneConv_forward_other_rank (s : Shape) :
  (length s < 3 \/ 5 < length s)%nat -> OneConv_forward s = inl BadRank.
Proof.
  intros H.
  destruct s as [|a [|b [|c [|d [|e [|f s]]]]]]; simpl in H; try lia; reflexivity.
Qed.

(** X9. [OneConv.forward] accepts exactly these inputs: a batch
    [n; 1; h; w] of one-channel images, or the same with a third dimension
    of size 1, whose images leave [(h - 4) * (w - 4) = 576] positions to the
    5x5 window, as 28x28 images do, and the output is then [n; 10]; or one
    unbatched image [1; h; w] with [(h - 4) * (w - 4) = 5184], whose output
    is [9; 10].  Every other shape is rejected by a layer. *)
Theorem OneConv_forward_accepts (s o : Shape) :
  OneConv_forward s = inr o <->
  (exists n h w,
     (s = [n; 1; h; w] \/ s = [n; 1; 1; h; w])%N /\
     (5 <= h /\ 5 <= w /\ (h - 4) * (w - 4) = 576)%N /\ o = [n; 10]%N) \/
  (exists h w,
     s = [1; h; w]%N /\
     (5 <= h /\ 5 <= w /\ (h - 4) * (w - 4) = 5184)%N /\ o = [9; 10]%N).
Proof.
  assert (Hbatch : forall n c h w,
    OneConv_forward [n; c; h; w] = inr o <->
    (c = 1 /\ 5 <= h /\ 5 <= w /\ (h - 4) * (w - 4) = 576)%N /\ o = [n; 10%N]).
  { intros n c h w. rewrite OneConv_forward_batch.
    destruct (N.eqb_spec c 1); simpl; [|split; [discriminate | lia]].
    destruct (N.ltb_spec h 5); simpl; [split; [discriminate | lia]|].
    destruct (N.ltb_spec w 5); simpl; [split; [discriminate | lia]|].
    destruct (N.eqb_spec (9 * ((h - 5 + 1) * ((w - 5 + 1) * 1))) 5184) as [He|He].
    - split; [intros [= <-] | reflexivity || (intros [_ ->]; reflexivity)].
      split; [|reflexivity]. repeat split; first [lia | nia].
    - split; [discriminate|]. intros [(_ & _ & _ & Hp) _]. exfalso. apply He.
      first [lia | nia]. }
  destruct s as [|a [|b [|c [|d [|e [|f s]]]]]].
  1, 2, 3, 7:
    (split; [rewrite OneConv_forward_other_rank by (simpl; lia); discriminate|];
     intros [(n & h & w & [Hs | Hs] & _) | (h & w & Hs & _)]; discriminate Hs).
  - (* one image *)
    rewrite OneConv_forward_image. split.
    + destruct (N.eqb_spec a 1); simpl; [|discriminate].
      destruct (N.ltb_spec b 5); simpl; [discriminate|].
      destruct (N.ltb_spec c 5); simpl; [discriminate|].
      destruct (N.eqb_spec ((b - 5 + 1) * ((c - 5 + 1) * 1)) 5184) as [He|He];
        [|discriminate].
      intros [= <-]. right. exists b, c. subst a. split; [reflexivity|].
      split; [|reflexivity]. repeat split; first [lia | nia].
    + intros [(n & h & w & [Hs | Hs] & _) | (h & w & [= -> -> ->] & (Hh & Hw & Hp) & ->)];
        try discriminate Hs.
      simpl. destruct (N.ltb_spec h 5); [lia|]. destruct (N.ltb_spec w 5); [lia|].
      simpl.
      destruct (N.eqb_spec ((h - 5 + 1) * ((w - 5 + 1) * 1)) 5184) as [He|He];
        [reflexivity|].
      exfalso. apply He. first [lia | nia].
  - (* a batch *)
    rewrite Hbatch. split.
    + intros [(-> & Hh & Hw & Hp) ->]. left. exists a, c, d. auto 10.
    + intros [(n & h & w & [[= -> -> -> ->] | Hs] & Hc & ->) | (h & w & Hs & _)];
        try discriminate Hs.
      split; [|reflexivity]. split; [reflexivity | exact Hc].
  - (* five dimensions *)
    rewrite OneConv_forward_five. split.
    + destruct (N.eqb_spec c 1) as [->|]; [|discriminate].
      rewrite Hbatch. intros [(-> & Hh & Hw & Hp) ->]. left. exists a, d, e. auto 10.
    + intros [(n & h & w & [Hs | [= -> -> -> -> ->]] & Hc & ->) | (h & w & Hs & _)];
        try discriminate Hs.
      simpl. rewrite Hbatch. split; [|reflexivity]. split; [reflexivity | exact Hc].
Qed.

(** The batches of the digit dataset, the probe of [summary] for
    [input_size=(1,1,28,28)], which has a fifth dimension, and images of
    another size. *)
Example OneConv_forward_mnist n :
  OneConv_forward [n; 1; 28; 28]%N = inr [n; 10]%N /\
  OneConv_forward [2; 1; 1; 28; 28]%N = inr [2; 10]%N /\
  OneConv_forward [n; 1; 32; 32]%N = inl BadFeatures.
Proof.
  rewrite OneConv_forward_five, !OneConv_forward_batch. repeat split.
Qed.

Section Cell.
Context `{FW : Framework}.

(** X10. The cell that trains the model either plots or prints its
    notice, never both.  It plots exactly when all five epochs completed:
    the history handed to [plot_results] then holds five entries in each of
    train_loss, train_acc, test_loss and test_acc and none in val_acc and
    val_loss, and five progress lines and no error line were printed.
    Otherwise it prints the notice, after the error line of [train], and
    fewer than five progress lines were printed. *)
Theorem training_cell_outcome net tl te :
  (exists h,
     snd (training_cell net tl te) = PlotResults h /\
     lengths h = epoch_lengths 5 5 /\
     h !! "val_acc" = Some [] /\ h !! "val_loss" = Some [] /\
     count_lines is_progress (fst (training_cell net tl te)) = 5%nat /\
     count_lines is_error (fst (training_cell net tl te)) = 0%nat) \/
  (snd (training_cell net tl te) = PrintNotice "Training did not return any history." /\
   exists e out,
     fst (training_cell net tl te) = out ++ [ErrorLine e] /\
     count_lines is_error out = 0%nat /\
     (count_lines is_progress out < 5)%nat).
Proof.
  pose proof (epochs_loop_sync tl te 5 _ (initial_state_completed net)) as Hsync.
  pose proof (epochs_loop_no_error_lines net tl te 5) as Hquiet.
  unfold training_cell, train.
  destruct (epochs_loop tl te 5 (initial_state net)) as [[[]|e] st]; simpl in *.
  - left. destruct Hsync as [Hn Hk]. exists (history st).
    split; [reflexivity|]. split; [exact Hn|].
    split; [apply lengths_zero_lookup; rewrite Hn; reflexivity|].
    split; [apply lengths_zero_lookup; rewrite Hn; reflexivity|].
    split; [exact Hk | exact Hquiet].
  - right. split; [reflexivity|]. exists e, (stdout st).
    split; [reflexivity|]. split; [exact Hquiet|].
    destruct Hsync as (k & Hlt & [[_ Hk] | [_ Hk]]); rewrite Hk;
      change (Z.to_nat 5) with 5%nat in Hlt; exact Hlt.
Qed.

End Cell.

(** X9 on a batch of 64 digit images. *)
Lemma OneConv_forward_accepts_witness :
  OneConv_forward [64; 1; 28; 28]%N = inr [64; 10]%N.
Proof.
  apply OneConv_forward_accepts. left. exists 64%N, 28%N, 28%N.
  split; [left; reflexivity|]. split; [|reflexivity]. repeat split; lia.
Defined.
